(** * error-style: the rule engine and the legacy [prettyTry] helper

    A shallow embedding of [src/engine/rule-engine.ts], [src/rules/types.ts],
    [src/rules/core-rules.ts] and [src/core/index.ts].

    - JavaScript numbers are IEEE-754 binary64 values: confidences are
      primitive floats, added in the order the source adds them.
    - JavaScript strings are sequences of code units; the model covers the
      code units U+0000..U+00FF (one [ascii] each), on which [toLowerCase]
      is the Latin-1 case mapping.
    - Evaluation either completes normally or throws a value; every
      function that can fault returns a [Completion].
    - Objects used as dictionaries ([getStats]) are finite maps keyed by
      strings. *)

From Stdlib Require Import PrimFloat ZArith List String Ascii Bool Lia.
From stdpp Require Import gmap strings.
Import ListNotations.

Set Warnings "-inexact-float,-register-all".

Local Open Scope string_scope.
Local Open Scope list_scope.

(** ** Completions: normal results and thrown values *)

Inductive Completion (E A : Type) : Type :=
| Normal (a : A)
| Throw (e : E).
Arguments Normal {E A} a.
Arguments Throw {E A} e.

Definition bind {E A B} (c : Completion E A) (k : A -> Completion E B) : Completion E B :=
  match c with
  | Normal a => k a
  | Throw e => Throw e
  end.

Notation "'let*' x ':=' c 'in' k" := (bind c (fun x => k))
  (at level 10, x name, c at level 100, k at level 200).

(** The error-like value handed to the engine.  The TypeScript type is
    [Error] ([message] and [name] are strings); at run time either field
    may be missing, which is [None]. *)
Module JsError.
Record t : Type := mk {
  message : option string;
  name : option string;
  stack : option string
}.
End JsError.

(** The values a function may throw.  [JsErrorObject] is an instance of
    [Error]; [JsObject] is any other object, described by what converting
    it to a string does (its [toString]/[valueOf] may be missing or may
    throw in turn).  Numbers, bigints and symbols convert like the primitives
    listed and are left out. *)
Inductive JsValue : Type :=
| JsUndefined
| JsNull
| JsBoolean (b : bool)
| JsString (s : string)
| JsErrorObject (e : JsError.t)
| JsObject (conversion : Completion JsValue string).

Abbreviation Result := (Completion JsValue).

(** The [TypeError] the runtime raises (V8 wording). *)
Definition typeError (msg : string) : JsValue :=
  JsErrorObject (JsError.mk (Some msg) (Some "TypeError") None).

Definition cannotRead (prop : string) : JsValue :=
  typeError ("Cannot read properties of undefined (reading '" +:+ prop +:+ "')").

(** [error instanceof Error] *)
Definition instanceofError (v : JsValue) : bool :=
  match v with
  | JsErrorObject _ => true
  | _ => false
  end.

(** [String(v)] for a value that is not an [Error]. *)
Definition String_ (v : JsValue) : Result string :=
  match v with
  | JsUndefined => Normal "undefined"
  | JsNull => Normal "null"
  | JsBoolean true => Normal "true"
  | JsBoolean false => Normal "false"
  | JsString s => Normal s
  | JsErrorObject e =>
      (* Error.prototype.toString: name and message joined; not reached by
         the code below, which tests instanceof first *)
      let n := default "Error" (JsError.name e) in
      let m := default "" (JsError.message e) in
      Normal (if String.eqb n "" then m
              else if String.eqb m "" then n
              else n +:+ ": " +:+ m)
  | JsObject conversion => conversion
  end.

(** ** Strings *)

(** [String.prototype.toLowerCase] on one Latin-1 code unit. *)
Definition lowerChar (c : ascii) : ascii :=
  let n := nat_of_ascii c in
  if ((65 <=? n)%nat && (n <=? 90)%nat)
     || ((192 <=? n)%nat && (n <=? 222)%nat && negb (n =? 215)%nat)
  then ascii_of_nat (n + 32)
  else c.

Fixpoint toLowerCase (s : string) : string :=
  match s with
  | EmptyString => EmptyString
  | String c s' => String (lowerChar c) (toLowerCase s')
  end.

(** [s.includes(searchString)] *)
Fixpoint includes (s searchString : string) : bool :=
  String.prefix searchString s
  || match s with
     | EmptyString => false
     | String _ s' => includes s' searchString
     end.

(** JavaScript truthiness of an optional string: [undefined] and the empty
    string are falsy. *)
Definition truthy (s : option string) : bool :=
  match s with
  | Some s => negb (String.eqb s "")
  | None => false
  end.

(** ** Numbers *)

(** [Math.min(x, y)] *)
Definition Math_min (x y : float) : float :=
  if is_nan x || is_nan y then nan
  else if (x <? y)%float then x
  else if (y <? x)%float then y
  else if is_zero x && get_sign x then x
  else y.

(** [Array.prototype.sort(compareFn)]: the sort is stable (ECMAScript 2019),
    an element moves in front of an earlier one only when [compareFn] says
    so with a positive number. *)
Section Sort.
Context {A : Type} (compareFn : A -> A -> float).

Fixpoint sortInsert (x : A) (sorted : list A) : list A :=
  match sorted with
  | [] => [x]
  | y :: rest =>
      if (0 <? compareFn x y)%float then y :: sortInsert x rest
      else x :: y :: rest
  end.

Fixpoint Array_sort (l : list A) : list A :=
  match l with
  | [] => []
  | x :: rest => sortInsert x (Array_sort rest)
  end.
End Sort.

(** ** src/rules/types.ts *)

Inductive Category : Type :=
| javascript | nodejs | react | network | async | json.

Inductive Severity : Type :=
| low | medium | high | critical.

Inductive Environment : Type :=
| browser | node | deno | bun.

#[global] Instance Category_eq_dec : EqDecision Category.
Proof. solve_decision. Defined.

#[global] Instance Severity_eq_dec : EqDecision Severity.
Proof. solve_decision. Defined.

(** A catalogue entry.  [explanation], [fixes], [examples], [relatedErrors]
    and [resources] are display text the engine never reads; [explanation]
    stands for them here. *)
Module ErrorRule.
Record t : Type := mk {
  id : string;
  name : string;
  category : Category;
  match_ : JsError.t -> Result bool;
  title : string;
  explanation : string;
  severity : option Severity;
  frameworks : option (list string)
}.
End ErrorRule.

Module ErrorContext.
Record t : Type := mk {
  framework : option string;
  environment : option Environment;
  code : option string;
  line : option float;
  column : option float
}.
End ErrorContext.

Module RuleMatch.
Record t : Type := mk {
  rule : ErrorRule.t;
  error : JsError.t;
  confidence : float
}.
End RuleMatch.

(** ** src/rules/core-rules.ts *)

(** [error.message.includes(s)]: reading [includes] off a missing message
    is a [TypeError]. *)
Definition messageIncludes (error : JsError.t) (s : string) : Result bool :=
  match JsError.message error with
  | Some m => Normal (includes m s)
  | None => Throw (cannotRead "includes")
  end.

(** [error.name === s] *)
Definition nameIs (error : JsError.t) (s : string) : Result bool :=
  Normal (match JsError.name error with
          | Some n => String.eqb n s
          | None => false
          end).

(** Short-circuit [||] and [&&] on evaluations that may throw. *)
Definition orElse (a b : Result bool) : Result bool :=
  let* x := a in if x then Normal true else b.

Definition andAlso (a b : Result bool) : Result bool :=
  let* x := a in if x then b else Normal false.

Infix "|||" := orElse (at level 50, left associativity).
Infix "&&&" := andAlso (at level 40, left associativity).

Definition undefined_property : ErrorRule.t := {|
  ErrorRule.id := "undefined-property";
  ErrorRule.name := "Undefined Property Access";
  ErrorRule.category := javascript;
  ErrorRule.match_ := fun error =>
    messageIncludes error "Cannot read properties of undefined" ||| messageIncludes error "Cannot access property" &&& messageIncludes error "undefined";
  ErrorRule.title := "Trying to use something that doesn't exist";
  ErrorRule.explanation := "You attempted to access a property on a variable that is undefined. This usually happens when data hasn't loaded yet or a function returned undefined unexpectedly.";
  ErrorRule.severity := Some high;
  ErrorRule.frameworks := None
|}.

Definition null_property : ErrorRule.t := {|
  ErrorRule.id := "null-property";
  ErrorRule.name := "Null Property Access";
  ErrorRule.category := javascript;
  ErrorRule.match_ := fun error =>
    messageIncludes error "Cannot read properties of null" ||| messageIncludes error "Cannot access property" &&& messageIncludes error "null";
  ErrorRule.title := "Trying to use something that is null";
  ErrorRule.explanation := "You attempted to access a property on a variable that is null. This often happens when a function returns null or a property is explicitly set to null.";
  ErrorRule.severity := Some high;
  ErrorRule.frameworks := None
|}.

Definition map_not_function : ErrorRule.t := {|
  ErrorRule.id := "map-not-function";
  ErrorRule.name := "Map Called on Non-Array";
  ErrorRule.category := javascript;
  ErrorRule.match_ := fun error =>
    messageIncludes error "map is not a function" ||| messageIncludes error ".map" &&& messageIncludes error "not a function";
  ErrorRule.title := "Called map() on something that isn't an array";
  ErrorRule.explanation := "You tried to use the map() method on a value that isn't an array. This commonly happens when APIs return objects instead of arrays, or when data is undefined/null.";
  ErrorRule.severity := Some high;
  ErrorRule.frameworks := None
|}.

Definition not_defined : ErrorRule.t := {|
  ErrorRule.id := "not-defined";
  ErrorRule.name := "Variable Not Defined";
  ErrorRule.category := javascript;
  ErrorRule.match_ := fun error =>
    messageIncludes error "is not defined" ||| nameIs error "ReferenceError";
  ErrorRule.title := "Using a variable that doesn't exist";
  ErrorRule.explanation := "You tried to use a variable that hasn' been declared. This could be a typo, missing import, or using a variable before it's defined.";
  ErrorRule.severity := Some medium;
  ErrorRule.frameworks := None
|}.

Definition json_parse_error : ErrorRule.t := {|
  ErrorRule.id := "json-parse-error";
  ErrorRule.name := "JSON Parse Error";
  ErrorRule.category := json;
  ErrorRule.match_ := fun error =>
    messageIncludes error "Unexpected token" &&& messageIncludes error "JSON" ||| messageIncludes error "JSON.parse" ||| messageIncludes error "not valid JSON";
  ErrorRule.title := "Failed to parse JSON data";
  ErrorRule.explanation := "The response you received isn't valid JSON. This usually means the API returned HTML (like an error page) instead of JSON, or the JSON is malformed.";
  ErrorRule.severity := Some high;
  ErrorRule.frameworks := None
|}.

Definition fetch_failed : ErrorRule.t := {|
  ErrorRule.id := "fetch-failed";
  ErrorRule.name := "Network Request Failed";
  ErrorRule.category := network;
  ErrorRule.match_ := fun error =>
    messageIncludes error "fetch failed" ||| messageIncludes error "NetworkError" ||| messageIncludes error "ECONNREFUSED";
  ErrorRule.title := "Network request failed";
  ErrorRule.explanation := "The network request couldn't be completed. This could be due to no internet connection, wrong URL, server being down, or CORS issues.";
  ErrorRule.severity := Some medium;
  ErrorRule.frameworks := None
|}.

Definition await_outside_async : ErrorRule.t := {|
  ErrorRule.id := "await-outside-async";
  ErrorRule.name := "Await Outside Async Function";
  ErrorRule.category := async;
  ErrorRule.match_ := fun error =>
    messageIncludes error "await is only valid in async functions" ||| messageIncludes error "await is only valid in async";
  ErrorRule.title := "Used await outside an async function";
  ErrorRule.explanation := "You can only use the await keyword inside functions marked with async. This ensures proper Promise handling.";
  ErrorRule.severity := Some medium;
  ErrorRule.frameworks := None
|}.

Definition promise_rejection : ErrorRule.t := {|
  ErrorRule.id := "promise-rejection";
  ErrorRule.name := "Unhandled Promise Rejection";
  ErrorRule.category := async;
  ErrorRule.match_ := fun error =>
    messageIncludes error "UnhandledPromiseRejectionWarning" ||| nameIs error "UnhandledPromiseRejection";
  ErrorRule.title := "Promise rejected but not caught";
  ErrorRule.explanation := "A Promise was rejected but there was no .catch() or try/catch to handle it. This can cause your app to crash.";
  ErrorRule.severity := Some high;
  ErrorRule.frameworks := None
|}.

Definition enoent : ErrorRule.t := {|
  ErrorRule.id := "enoent";
  ErrorRule.name := "File Not Found";
  ErrorRule.category := nodejs;
  ErrorRule.match_ := fun error =>
    messageIncludes error "ENOENT" ||| messageIncludes error "no such file or directory";
  ErrorRule.title := "File or directory doesn't exist";
  ErrorRule.explanation := "You tried to access a file that doesn't exist. This could be a wrong path, missing file, or incorrect working directory.";
  ErrorRule.severity := Some medium;
  ErrorRule.frameworks := None
|}.

Definition eacces : ErrorRule.t := {|
  ErrorRule.id := "eacces";
  ErrorRule.name := "Permission Denied";
  ErrorRule.category := nodejs;
  ErrorRule.match_ := fun error =>
    messageIncludes error "EACCES" ||| messageIncludes error "permission denied";
  ErrorRule.title := "Permission denied for file operation";
  ErrorRule.explanation := "You don't have permission to access or modify this file/directory. This is common when trying to write to protected locations.";
  ErrorRule.severity := Some medium;
  ErrorRule.frameworks := None
|}.

Definition port_in_use : ErrorRule.t := {|
  ErrorRule.id := "port-in-use";
  ErrorRule.name := "Port Already in Use";
  ErrorRule.category := nodejs;
  ErrorRule.match_ := fun error =>
    messageIncludes error "EADDRINUSE" ||| messageIncludes error "port already in use" ||| messageIncludes error "address already in use";
  ErrorRule.title := "Port is already being used by another process";
  ErrorRule.explanation := "Another application is already using this port. This commonly happens when you forget to stop a dev server before starting a new one.";
  ErrorRule.severity := Some low;
  ErrorRule.frameworks := None
|}.

Definition react_children : ErrorRule.t := {|
  ErrorRule.id := "react-children";
  ErrorRule.name := "Invalid React Child";
  ErrorRule.category := react;
  ErrorRule.match_ := fun error =>
    messageIncludes error "Objects are not valid as a React child" ||| messageIncludes error "Functions are not valid as a React child";
  ErrorRule.title := "Trying to render an object as React child";
  ErrorRule.explanation := "React can only render strings, numbers, and JSX elements. You're trying to render an object or function directly.";
  ErrorRule.severity := Some high;
  ErrorRule.frameworks := Some ["react"]
|}.

Definition react_too_many_renders : ErrorRule.t := {|
  ErrorRule.id := "react-too-many-renders";
  ErrorRule.name := "Too Many React Re-renders";
  ErrorRule.category := react;
  ErrorRule.match_ := fun error =>
    messageIncludes error "Too many re-renders" ||| messageIncludes error "Maximum update depth exceeded";
  ErrorRule.title := "Infinite re-render loop in React";
  ErrorRule.explanation := "Your component is triggering state updates that cause it to re-render infinitely. This usually happens when you set state during render.";
  ErrorRule.severity := Some critical;
  ErrorRule.frameworks := Some ["react"]
|}.

Definition react_hooks_rules : ErrorRule.t := {|
  ErrorRule.id := "react-hooks-rules";
  ErrorRule.name := "React Hooks Rules Violation";
  ErrorRule.category := react;
  ErrorRule.match_ := fun error =>
    messageIncludes error "Hooks can only be called inside" ||| messageIncludes error "Invalid hook call";
  ErrorRule.title := "React hook called outside component or in wrong order";
  ErrorRule.explanation := "React hooks must be called at the top level of function components and in the same order every time.";
  ErrorRule.severity := Some high;
  ErrorRule.frameworks := Some ["react"]
|}.

Definition coreRules : list ErrorRule.t :=
  [ undefined_property;
    null_property;
    map_not_function;
    not_defined;
    json_parse_error;
    fetch_failed;
    await_outside_async;
    promise_rejection;
    enoent;
    eacces;
    port_in_use;
    react_children;
    react_too_many_renders;
    react_hooks_rules ].

(** ** src/engine/rule-engine.ts *)

Module RuleEngine.

(** The engine's only state is its private [rules] array. *)
Record t : Type := mk { rules : list ErrorRule.t }.

(** [constructor(customRules = [])] *)
Definition new (customRules : list ErrorRule.t) : t :=
  {| rules := coreRules ++ customRules |}.

(** [context?.framework] *)
Definition contextFramework (context : option ErrorContext.t) : option string :=
  match context with
  | Some c => ErrorContext.framework c
  | None => None
  end.

(** [rule.frameworks?.includes(framework)]; [undefined] is falsy. *)
Definition frameworksInclude (rule : ErrorRule.t) (framework : string) : bool :=
  match ErrorRule.frameworks rule with
  | Some fs => existsb (String.eqb framework) fs
  | None => false
  end.

(** [error.message.toLowerCase()]: a [TypeError] when the message is
    missing. *)
Definition messageToLowerCase (error : JsError.t) : Result string :=
  match JsError.message error with
  | Some m => Normal (toLowerCase m)
  | None => Throw (cannotRead "toLowerCase")
  end.

Definition calculateConfidence (rule : ErrorRule.t) (error : JsError.t)
    (context : option ErrorContext.t) : Result float :=
  let confidence := 0.5%float in
  let* message := messageToLowerCase error in
  let confidence :=
    if includes message (toLowerCase (ErrorRule.title rule))
    then (confidence + 0.3)%float else confidence in
  let confidence :=
    if truthy (contextFramework context)
       && frameworksInclude rule (default "" (contextFramework context))
    then (confidence + 0.2)%float else confidence in
  let confidence :=
    if truthy (JsError.name error)
       && includes (toLowerCase (ErrorRule.name rule))
                   (toLowerCase (default "" (JsError.name error)))
    then (confidence + 0.1)%float else confidence in
  let confidence :=
    if decide (ErrorRule.severity rule = Some critical)
    then (confidence + 0.1)%float else confidence in
  let confidence :=
    if decide (ErrorRule.severity rule = Some high)
    then (confidence + 0.05)%float else confidence in
  Normal (Math_min confidence 1.0%float).

(** The [for] loop of [findMatch]: [matches] is the array built so far. *)
Fixpoint collectMatches (rules : list ErrorRule.t) (error : JsError.t)
    (context : option ErrorContext.t) (matches : list RuleMatch.t)
    : Result (list RuleMatch.t) :=
  match rules with
  | [] => Normal matches
  | rule :: rest =>
      let* matched := ErrorRule.match_ rule error in
      if matched then
        let* confidence := calculateConfidence rule error context in
        collectMatches rest error context
          (matches ++ [RuleMatch.mk rule error confidence])
      else collectMatches rest error context matches
  end.

(** [(a, b) => b.confidence - a.confidence] *)
Definition byConfidence (a b : RuleMatch.t) : float :=
  (RuleMatch.confidence b - RuleMatch.confidence a)%float.

(** [findMatch(error, context?)]; [None] is [null]. *)
Definition findMatch (this : t) (error : JsError.t)
    (context : option ErrorContext.t) : Result (option RuleMatch.t) :=
  let* matches := collectMatches (rules this) error context [] in
  if (length matches =? 0)%nat then Normal None
  else Normal (head (Array_sort byConfidence matches)).

(** [addRules(rules)]: [push] appends in place. *)
Definition addRules (this : t) (rules' : list ErrorRule.t) : t :=
  {| rules := rules this ++ rules' |}.

Definition getRulesByCategory (this : t) (category : Category) : list ErrorRule.t :=
  List.filter (fun rule => bool_decide (ErrorRule.category rule = category))
              (rules this).

Definition getRulesByFramework (this : t) (framework : string) : list ErrorRule.t :=
  List.filter (fun rule => frameworksInclude rule framework) (rules this).

Definition categoryKey (c : Category) : string :=
  match c with
  | javascript => "javascript" | nodejs => "nodejs" | react => "react"
  | network => "network" | async => "async" | json => "json"
  end.

(** [rule.severity || 'unknown'] *)
Definition severityKey (s : option Severity) : string :=
  match s with
  | Some low => "low" | Some medium => "medium"
  | Some high => "high" | Some critical => "critical"
  | None => "unknown"
  end.

Record Stats : Type := mkStats {
  totalRules : nat;
  byCategory : gmap string nat;
  byFramework : gmap string nat;
  bySeverity : gmap string nat
}.

(** [counts[key] = (counts[key] || 0) + 1], for a key that is not the
    name of a member the counter object inherits from [Object.prototype];
    the category and severity keys never are. *)
Definition increment (key : string) (counts : gmap string nat) : gmap string nat :=
  <[key := default 0 (counts !! key) + 1]> counts.

Definition countRule (stats : Stats) (rule : ErrorRule.t) : Stats :=
  {| totalRules := totalRules stats;
     byCategory := increment (categoryKey (ErrorRule.category rule)) (byCategory stats);
     byFramework :=
       match ErrorRule.frameworks rule with
       | Some fs => fold_left (fun counts framework => increment framework counts)
                              fs (byFramework stats)
       | None => byFramework stats
       end;
     bySeverity := increment (severityKey (ErrorRule.severity rule)) (bySeverity stats) |}.

Definition getStats (this : t) : Stats :=
  let stats :=
    {| totalRules := length (rules this);
       byCategory := ∅; byFramework := ∅; bySeverity := ∅ |} in
  fold_left countRule (rules this) stats.

(** The singleton [ruleEngine = new RuleEngine()] *)
Definition ruleEngine : t := new [].

End RuleEngine.

(** ** src/types/index.ts *)

(** The interface declares [reason] and [fix] as strings; an explanation
    built from an inherited member of the table (see [Core.memberAt]) has
    neither, which is [None]. *)
Module ErrorExplanation.
Record t : Type := mk {
  message : string;
  reason : option string;
  fix_ : option string;
  suggestions : option (list string)
}.
End ErrorExplanation.

Module PrettyTryResult.
Record t (T : Type) : Type := mk {
  success : bool;
  data : option T;
  error : option ErrorExplanation.t
}.
Arguments mk {T} _ _ _.
Arguments success {T} _.
Arguments data {T} _.
Arguments error {T} _.
End PrettyTryResult.

(** ** src/core/index.ts *)

Module Core.

(** An entry of the legacy table: an explanation without its message. *)
Record Mapping : Type := mkMapping {
  reason : string;
  fix_ : string;
  suggestions : option (list string)
}.

(** The table in declaration order, which is the order [Object.entries]
    walks it in.  These are the object's own keys; [memberAt] adds the
    members it inherits. *)
Definition errorMappings : list (string * Mapping) :=
  [
    ("Cannot read properties of undefined",
     {| reason := "You tried to use something before it existed.";
        fix_ := "Check if the value exists first using optional chaining (?.) or if statements.";
        suggestions := Some ["Try: value?.property instead of value.property";
          "Add: if (value) { /* your code */ }";
          "Initialize the variable before using it"] |});
    ("Cannot read properties of null",
     {| reason := "You tried to access properties on a null value.";
        fix_ := "Check if the value is null before accessing its properties.";
        suggestions := Some ["Use optional chaining: value?.property";
          "Add null check: if (value !== null)";
          "Provide a default value: value || defaultValue"] |});
    ("map is not a function",
     {| reason := "You tried to call map() on something that isn't an array.";
        fix_ := "Make sure you're calling map() on an actual array.";
        suggestions := Some ["Check if the value is an array: Array.isArray(value)";
          "Convert to array first: Array.from(value)";
          "Use optional chaining: value?.map(...)"] |});
    ("Unexpected token",
     {| reason := "Failed to parse JSON - the response isn't valid JSON.";
        fix_ := "The API probably returned HTML or an error message instead of JSON.";
        suggestions := Some ["Check response.status before parsing";
          "Log the raw response: console.log(await response.text())";
          "Verify the API endpoint is correct"] |});
    ("Failed to fetch",
     {| reason := "Network request failed - can't reach the server.";
        fix_ := "Check your internet connection and the API URL.";
        suggestions := Some ["Verify the URL is correct";
          "Check if the server is running";
          "Try accessing the URL in your browser"] |});
    ("await is only valid in async functions",
     {| reason := "You used await outside of an async function.";
        fix_ := "Add the async keyword to your function declaration.";
        suggestions := Some ["Change: function myFunc() to async function myFunc()";
          "For arrow functions: () => {} to async () => {}";
          "Use .then() instead of await if not in async function"] |});
    ("module not found",
     {| reason := "The module you're trying to import doesn't exist.";
        fix_ := "Install the missing package or check the import path.";
        suggestions := Some ["Run: npm install package-name";
          "Check spelling in the import statement";
          "Verify the file path is correct"] |})
  ].

(** [{ message: errorMessage, ...mapping }] *)
Definition explain (errorMessage : string) (mapping : Mapping) : ErrorExplanation.t :=
  {| ErrorExplanation.message := errorMessage;
     ErrorExplanation.reason := Some (reason mapping);
     ErrorExplanation.fix_ := Some (fix_ mapping);
     ErrorExplanation.suggestions := suggestions mapping |}.

(** The table's own entry for [key], if it has one. *)
Fixpoint lookupMapping (key : string) (entries : list (string * Mapping)) : option Mapping :=
  match entries with
  | [] => None
  | (k, mapping) :: rest =>
      if String.eqb k key then Some mapping else lookupMapping key rest
  end.

(** The loop over [Object.entries(errorMappings)]: the first entry whose
    key the message includes. *)
Fixpoint findPartial (errorMessage : string) (entries : list (string * Mapping)) : option Mapping :=
  match entries with
  | [] => None
  | (key, mapping) :: rest =>
      if includes errorMessage key then Some mapping
      else findPartial errorMessage rest
  end.

Definition unknownMapping : Mapping :=
  {| reason := "Something went wrong, but this error type isn't mapped yet.";
     fix_ := "Check the error message and try to understand what went wrong.";
     suggestions := Some ["Look at the line number in the error";
                          "Check your variable values";
                          "Search online for this specific error"] |}.

(** The table is an object literal, so it inherits the members of
    [Object.prototype]: functions, and the prototype itself under
    [__proto__].  Each is truthy and has no enumerable property of its
    own. *)
Definition objectPrototypeKeys : list string :=
  ["constructor"; "hasOwnProperty"; "isPrototypeOf"; "propertyIsEnumerable";
   "toLocaleString"; "toString"; "valueOf"; "__proto__";
   "__defineGetter__"; "__defineSetter__"; "__lookupGetter__"; "__lookupSetter__"].

Definition inherited (key : string) : bool :=
  existsb (String.eqb key) objectPrototypeKeys.

Inductive Member : Type :=
| OwnEntry (mapping : Mapping)
| InheritedMember.

(** [errorMappings[key]]: an own entry, else an inherited member, else
    [undefined]. *)
Definition memberAt (key : string) : option Member :=
  match lookupMapping key errorMappings with
  | Some mapping => Some (OwnEntry mapping)
  | None => if inherited key then Some InheritedMember else None
  end.

(** [{ message: errorMessage, ...member }] for an inherited member: the
    spread copies nothing. *)
Definition messageOnly (errorMessage : string) : ErrorExplanation.t :=
  {| ErrorExplanation.message := errorMessage;
     ErrorExplanation.reason := None;
     ErrorExplanation.fix_ := None;
     ErrorExplanation.suggestions := None |}.

Definition getErrorExplanation (error : JsError.t) : Result ErrorExplanation.t :=
  match JsError.message error with
  | Some errorMessage =>
      match memberAt errorMessage with
      | Some (OwnEntry mapping) => Normal (explain errorMessage mapping)
      | Some InheritedMember => Normal (messageOnly errorMessage)
      | None =>
          match findPartial errorMessage errorMappings with
          | Some mapping => Normal (explain errorMessage mapping)
          | None => Normal (explain errorMessage unknownMapping)
          end
      end
  | None =>
      (* errorMappings[undefined] reads the key 'undefined' and finds
         nothing, and the loop's first errorMessage.includes(key) reads a
         property of undefined *)
      Throw (cannotRead "includes")
  end.

(** [prettyTry(fn)]: [fn] is called once and either returns or throws. *)
Definition prettyTry {T : Type} (fn : unit -> Result T) : Result (PrettyTryResult.t T) :=
  match fn tt with
  | Normal result =>
      Normal {| PrettyTryResult.success := true;
                PrettyTryResult.data := Some result;
                PrettyTryResult.error := None |}
  | Throw error =>
      match error with
      | JsErrorObject e =>
          let* explanation := getErrorExplanation e in
          Normal {| PrettyTryResult.success := false;
                    PrettyTryResult.data := None;
                    PrettyTryResult.error := Some explanation |}
      | _ =>
          let* message := String_ error in
          Normal {| PrettyTryResult.success := false;
                    PrettyTryResult.data := None;
                    PrettyTryResult.error := Some
                      {| ErrorExplanation.message := message;
                         ErrorExplanation.reason := Some "An unknown error occurred.";
                         ErrorExplanation.fix_ :=
                           Some "Check your code for potential issues.";
                         ErrorExplanation.suggestions :=
                           Some ["Add proper error handling"; "Validate your inputs"] |} |}
      end
  end.

End Core.

(** * Vocabulary of the properties *)

(** ** Case-insensitive containment *)

(** [s] contains [sub] case-insensitively: some substring of [s] is [sub]
    up to the case of its letters. *)
Definition containsIgnoringCase (s sub : string) : Prop :=
  exists pre mid post,
    s = pre +:+ mid +:+ post /\ toLowerCase mid = toLowerCase sub.

(** ** The scoring formula *)

(** The severity term: 0.1 for critical, 0.05 for high, never both. *)
Definition severityBonus (s : option Severity) : float :=
  match s with
  | Some critical => 0.1
  | Some high => 0.05
  | _ => 0
  end%float.

(** The formula as the specification words it: a base of 0.5, one term
    per bonus that applies, clamped at 1.0. *)
Definition specConfidence (titleBonus frameworkBonus nameBonus : bool)
    (s : option Severity) : float :=
  Math_min (0.5 + (if titleBonus then 0.3 else 0)
                + (if frameworkBonus then 0.2 else 0)
                + (if nameBonus then 0.1 else 0)
                + severityBonus s)%float 1.0%float.

(** The three tests [calculateConfidence] makes. *)
Definition titleTest (rule : ErrorRule.t) (msg : string) : bool :=
  includes (toLowerCase msg) (toLowerCase (ErrorRule.title rule)).

Definition frameworkTest (rule : ErrorRule.t) (context : option ErrorContext.t) : bool :=
  truthy (RuleEngine.contextFramework context)
  && RuleEngine.frameworksInclude rule (default "" (RuleEngine.contextFramework context)).

Definition nameTest (rule : ErrorRule.t) (error : JsError.t) : bool :=
  truthy (JsError.name error)
  && includes (toLowerCase (ErrorRule.name rule))
              (toLowerCase (default "" (JsError.name error))).

(** Every value the formula can take. *)
Definition scores : list float :=
  t ← [false; true]; f ← [false; true]; n ← [false; true];
  s ← [None; Some low; Some medium; Some high; Some critical];
  [specConfidence t f n s].

(** On the scores, the sign of a difference and the comparisons agree and
    [<=?] is a total preorder; checked by evaluating every combination. *)
Definition scoresOrderedAt (x y z : float) : bool :=
  (Bool.eqb (0 <? y - x) (x <? y)
   && ((x <? y) || (y <=? x))
   && implb (x <? y) (x <=? y)
   && implb ((x <=? y) && (y <=? z)) (x <=? z)
   && (0.5 <=? x) && (0 <=? x) && (x <=? 1))%float.

(** ** Recorded matches and candidates *)

Definition scored (m : RuleMatch.t) : Prop := In (RuleMatch.confidence m) scores.

Definition below (m m' : RuleMatch.t) : Prop :=
  (RuleMatch.confidence m' <? RuleMatch.confidence m)%float = true.

Definition notAbove (m m' : RuleMatch.t) : Prop :=
  (RuleMatch.confidence m' <=? RuleMatch.confidence m)%float = true.

(** The matches the loop records when it completes: one for every rule
    whose predicate returned true, in the order of the rules. *)
Fixpoint candidates (rules : list ErrorRule.t) (error : JsError.t)
    (context : option ErrorContext.t) : list RuleMatch.t :=
  match rules with
  | [] => []
  | rule :: rest =>
      match ErrorRule.match_ rule error,
            RuleEngine.calculateConfidence rule error context with
      | Normal true, Normal c =>
          RuleMatch.mk rule error c :: candidates rest error context
      | _, _ => candidates rest error context
      end
  end.

(** A rule is a candidate with score [c]. *)
Definition candidate (error : JsError.t) (context : option ErrorContext.t)
    (rule : ErrorRule.t) (c : float) : Prop :=
  ErrorRule.match_ rule error = Normal true
  /\ RuleEngine.calculateConfidence rule error context = Normal c.

(** No predicate faults on [error]. *)
Definition predicatesReturn (rules : list ErrorRule.t) (error : JsError.t) : Prop :=
  List.Forall (fun rule => exists b, ErrorRule.match_ rule error = Normal b) rules.

(** ** Sample inputs *)

(** The error of the specification's first scenario. *)
Definition mapOfUndefined : JsError.t :=
  {| JsError.message := Some "Cannot read properties of undefined (reading 'map')";
     JsError.name := Some "TypeError";
     JsError.stack := None |}.

Definition reactContext : ErrorContext.t :=
  {| ErrorContext.framework := Some "react";
     ErrorContext.environment := Some browser;
     ErrorContext.code := None;
     ErrorContext.line := None;
     ErrorContext.column := None |}.

(** ** When each bonus applies, in the words of the specification *)

Definition titleBonusApplies (rule : ErrorRule.t) (msg : string) : Prop :=
  containsIgnoringCase msg (ErrorRule.title rule).

(** [context.framework] is set and is a member of the rule's frameworks. *)
Definition frameworkSetAndMember (rule : ErrorRule.t)
    (context : option ErrorContext.t) : Prop :=
  exists framework fs,
    RuleEngine.contextFramework context = Some framework
    /\ ErrorRule.frameworks rule = Some fs /\ In framework fs.

(** The same, for a framework that is not the empty string. *)
Definition frameworkBonusApplies (rule : ErrorRule.t)
    (context : option ErrorContext.t) : Prop :=
  exists framework fs,
    RuleEngine.contextFramework context = Some framework
    /\ framework <> ""
    /\ ErrorRule.frameworks rule = Some fs /\ In framework fs.

Definition nameBonusApplies (rule : ErrorRule.t) (error : JsError.t) : Prop :=
  exists n,
    JsError.name error = Some n /\ n <> ""
    /\ containsIgnoringCase (ErrorRule.name rule) n.

(** [c] is the score the formula gives when the bonuses apply as [T], [F]
    and [N] say. *)
Definition scoredBy (T F N : Prop) (s : option Severity) (c : float) : Prop :=
  exists t f n : bool,
    (t = true <-> T) /\ (f = true <-> F) /\ (n = true <-> N)
    /\ c = specConfidence t f n s.

(** A rule tagged with the empty framework name, looked up with a context
    whose framework is the empty string. *)
Definition untaggedRule : ErrorRule.t :=
  {| ErrorRule.id := "custom-failure";
     ErrorRule.name := "Custom";
     ErrorRule.category := javascript;
     ErrorRule.match_ := fun error => messageIncludes error "boom";
     ErrorRule.title := "Custom failure";
     ErrorRule.explanation := "A failure raised by the application itself.";
     ErrorRule.severity := None;
     ErrorRule.frameworks := Some [""] |}.

Definition emptyFrameworkContext : ErrorContext.t :=
  {| ErrorContext.framework := Some "";
     ErrorContext.environment := None;
     ErrorContext.code := None;
     ErrorContext.line := None;
     ErrorContext.column := None |}.

Definition boom : JsError.t :=
  {| JsError.message := Some "boom";
     JsError.name := Some "Error";
     JsError.stack := None |}.

(** A rule whose predicate throws on every error, and one that matches
    every error that has a message. *)
Definition faultyRule : ErrorRule.t :=
  {| ErrorRule.id := "faulty";
     ErrorRule.name := "Faulty";
     ErrorRule.category := javascript;
     ErrorRule.match_ := fun _ => Throw (JsString "predicate failed");
     ErrorRule.title := "Faulty predicate";
     ErrorRule.explanation := "A rule whose predicate throws.";
     ErrorRule.severity := None;
     ErrorRule.frameworks := None |}.

Definition catchAllRule : ErrorRule.t :=
  {| ErrorRule.id := "catch-all";
     ErrorRule.name := "Catch All";
     ErrorRule.category := javascript;
     ErrorRule.match_ := fun error => messageIncludes error "";
     ErrorRule.title := "Something failed";
     ErrorRule.explanation := "A rule that matches every message.";
     ErrorRule.severity := None;
     ErrorRule.frameworks := None |}.

(** An error-like value with no message. *)
Definition noMessage : JsError.t :=
  {| JsError.message := None;
     JsError.name := Some "TypeError";
     JsError.stack := None |}.

Definition withEmptyMessage (error : JsError.t) : JsError.t :=
  {| JsError.message := Some "";
     JsError.name := JsError.name error;
     JsError.stack := JsError.stack error |}.

(** ** Comparing lookups *)

Definition mapCompletion {E A B} (f : A -> B) (c : Completion E A) : Completion E B :=
  let* a := c in Normal (f a).

(** What a recorded match says apart from its confidence. *)
Definition ruleAndError (m : RuleMatch.t) : ErrorRule.t * JsError.t :=
  (RuleMatch.rule m, RuleMatch.error m).

(** [Object.create(null)]: an object with neither [toString] nor
    [valueOf], which [String] cannot convert. *)
Definition bareObject : JsValue :=
  JsObject (Throw (typeError "Cannot convert object to primitive value")).

(** * Text wrapping *)

(** [wrapText] of src/core/index.ts (inside [formatError], with
    [maxWidth] fixed at 50) and of the formatter (with [maxWidth] a
    parameter, 60 by default); the two bodies are the same.  Lengths count
    code units; [maxWidth] is an integer. *)

(** [text.split(' ')] *)
Fixpoint splitSpaces (text : string) : list string :=
  match text with
  | EmptyString => [EmptyString]
  | String c rest =>
      if Ascii.eqb c " " then EmptyString :: splitSpaces rest
      else match splitSpaces rest with
           | word :: words => String c word :: words
           | [] => [String c EmptyString]
           end
  end.

(** Truthiness of a string: the empty string is falsy. *)
Definition nonEmpty (s : string) : bool := negb (String.eqb s "").

(** The two variables the [forEach] callback updates. *)
Record WrapState : Type := mkWrapState {
  lines : list string;
  currentLine : string
}.

(** [lines.push(indent + currentLine)] under [if (currentLine)] *)
Definition pushLine (indent : string) (st : WrapState) : list string :=
  if nonEmpty (currentLine st) then lines st ++ [indent +:+ currentLine st]
  else lines st.

(** The body of the [forEach] callback. *)
Definition wrapWord (maxWidth : Z) (indent : string) (st : WrapState)
    (word : string) : WrapState :=
  if (Z.of_nat (String.length (currentLine st +:+ word))
      <=? maxWidth - Z.of_nat (String.length indent))%Z
  then {| lines := lines st;
          currentLine :=
            currentLine st
            +:+ ((if nonEmpty (currentLine st) then " " else "") +:+ word) |}
  else {| lines := pushLine indent st; currentLine := word |}.

Definition wrapText (maxWidth : Z) (text indent : string) : list string :=
  let words := splitSpaces text in
  let st := fold_left (wrapWord maxWidth indent) words
                      {| lines := []; currentLine := "" |} in
  let lines := pushLine indent st in
  if (0 <? length lines)%nat then lines else [indent +:+ text].

(** * Vocabulary of the further properties *)

(** The number of rules a counting loop of [getStats] files under [key]. *)
Definition countKey (keyOf : ErrorRule.t -> string) (key : string)
    (rules : list ErrorRule.t) : nat :=
  length (List.filter (fun rule => bool_decide (keyOf rule = key)) rules).

(** What a counter object holds under a key that was counted [n] times:
    nothing at all when [n] is zero. *)
Definition counted (n : nat) : option nat :=
  if (n =? 0)%nat then None else Some n.

(** Two rules that differ at most in their severity. *)
Definition sameButSeverity (r1 r2 : ErrorRule.t) : Prop :=
  ErrorRule.title r1 = ErrorRule.title r2
  /\ ErrorRule.name r1 = ErrorRule.name r2
  /\ ErrorRule.frameworks r1 = ErrorRule.frameworks r2.

(** The rank the scoring gives a severity: only critical and high count. *)
Definition severityRank (s : option Severity) : nat :=
  match s with
  | Some critical => 2
  | Some high => 1
  | _ => 0
  end.

(** The keys of the legacy table the message includes. *)
Definition includedKeys (msg : string) : list string :=
  List.filter (includes msg) (map fst Core.errorMappings).

(** A word is a maximal run without spaces; a text is well spaced when it
    has no leading, trailing or doubled space (and is not empty). *)
Definition wellSpaced (text : string) : Prop :=
  List.Forall (fun word => word <> "") (splitSpaces text).

(** [line] is [indent] followed by [content]. *)
Definition indented (indent content line : string) : Prop :=
  line = indent +:+ content.

(** More sample inputs. *)
Definition criticalRule : ErrorRule.t :=
  {| ErrorRule.id := "critical-failure";
     ErrorRule.name := "Critical";
     ErrorRule.category := nodejs;
     ErrorRule.match_ := fun error => messageIncludes error "boom";
     ErrorRule.title := "Critical failure";
     ErrorRule.explanation := "A failure that must not be ignored.";
     ErrorRule.severity := Some critical;
     ErrorRule.frameworks := None |}.

(** The same rule, of high severity. *)
Definition highRule : ErrorRule.t :=
  {| ErrorRule.id := "high-failure";
     ErrorRule.name := "Critical";
     ErrorRule.category := nodejs;
     ErrorRule.match_ := fun error => messageIncludes error "boom";
     ErrorRule.title := "Critical failure";
     ErrorRule.explanation := "A failure that should not be ignored.";
     ErrorRule.severity := Some high;
     ErrorRule.frameworks := None |}.

(** A strict comparison excludes the converse one, on the scores. *)
Definition scoresStrictAt (x y : float) : bool :=
  implb (x <? y)%float (negb (y <=? x)%float).

(** A rule that looks at the error's name only. *)
Definition rangeErrorRule : ErrorRule.t :=
  {| ErrorRule.id := "range-error";
     ErrorRule.name := "Range Error";
     ErrorRule.category := javascript;
     ErrorRule.match_ := fun error => nameIs error "RangeError";
     ErrorRule.title := "Value out of range";
     ErrorRule.explanation := "A number was outside the range a function accepts.";
     ErrorRule.severity := Some medium;
     ErrorRule.frameworks := None |}.

(** The room [wrapText] leaves for a line after its indent. *)
Definition wrapLimit (maxWidth : Z) (indent : string) : Z :=
  (maxWidth - Z.of_nat (String.length indent))%Z.

(** A line's content is one word of the text, or is at most one code unit
    longer than the room left. *)
Definition wordOrFits (maxWidth : Z) (text indent content : string) : Prop :=
  In content (splitSpaces text)
  \/ (Z.of_nat (String.length content) <= wrapLimit maxWidth indent + 1)%Z.

(** Every line of [result] is [indent] followed by a content that [P]
    accepts. *)
Definition linesOf (indent : string) (P : string -> Prop) (result : list string) : Prop :=
  List.Forall (fun line => exists content, indented indent content line /\ P content)
              result.

(** * Properties *)

(** ** Substring search *)

Lemma append_cons (c : ascii) (a b : string) :
  String c a +:+ b = String c (a +:+ b).
Proof. reflexivity. Qed.

Lemma prefix_iff (sub s : string) :
  String.prefix sub s = true <-> exists post, s = sub +:+ post.
Proof.
  revert s. induction sub as [|c sub IH]; intros s.
  - split; [intros _; now exists s | now destruct s].
  - destruct s as [|d s]; [split; [discriminate | intros [? [=]]]|].
    simpl. destruct (Ascii.ascii_dec c d) as [->|Hne].
    + rewrite IH. split; intros [post E]; exists post;
        rewrite append_cons in *; congruence.
    + split; [discriminate|].
      intros [post E]. rewrite append_cons in E. congruence.
Qed.

Lemma includes_iff (s sub : string) :
  includes s sub = true <-> exists pre post, s = pre +:+ sub +:+ post.
Proof.
  induction s as [|c s IH].
  - change (includes "" sub) with (String.prefix sub "" || false).
    rewrite orb_false_r, prefix_iff. split.
    + intros [post E]. now exists "", post.
    + intros ([|? ?] & post & E); [now exists post | discriminate].
  - change (includes (String c s) sub)
      with (String.prefix sub (String c s) || includes s sub).
    rewrite orb_true_iff, prefix_iff, IH. split.
    + intros [[post E]|(pre & post & E)].
      * now exists "", post.
      * exists (String c pre), post. now rewrite append_cons, E.
    + intros ([|d pre] & post & E).
      * left. now exists post.
      * right. rewrite append_cons in E. injection E as _ E. now exists pre, post.
Qed.

Lemma toLowerCase_app (a b : string) :
  toLowerCase (a +:+ b) = toLowerCase a +:+ toLowerCase b.
Proof.
  induction a as [|c a IH]; [reflexivity|].
  rewrite append_cons. simpl. now rewrite IH.
Qed.

Lemma toLowerCase_split (s a b : string) :
  toLowerCase s = a +:+ b ->
  exists s1 s2, s = s1 +:+ s2 /\ toLowerCase s1 = a /\ toLowerCase s2 = b.
Proof.
  revert s. induction a as [|c a IH]; intros s E.
  - now exists "", s.
  - destruct s as [|d s]; [discriminate|].
    rewrite append_cons in E. simpl in E.
    injection E as Hc E. destruct (IH _ E) as (s1 & s2 & -> & H1 & H2).
    exists (String d s1), s2. simpl. now rewrite Hc, H1.
Qed.

Lemma includes_toLowerCase (s sub : string) :
  includes (toLowerCase s) (toLowerCase sub) = true <-> containsIgnoringCase s sub.
Proof.
  rewrite includes_iff. split.
  - intros (pre & post & E).
    apply toLowerCase_split in E as (s1 & s2 & -> & _ & E).
    apply toLowerCase_split in E as (s3 & s4 & -> & E & _).
    now exists s1, s3, s4.
  - intros (pre & mid & post & -> & E).
    exists (toLowerCase pre), (toLowerCase post).
    now rewrite !toLowerCase_app, E.
Qed.

(** ** The scoring formula *)

Lemma calculateConfidence_spec rule error context msg :
  JsError.message error = Some msg ->
  RuleEngine.calculateConfidence rule error context
  = Normal (specConfidence (titleTest rule msg) (frameworkTest rule context)
                           (nameTest rule error) (ErrorRule.severity rule)).
Proof.
  intros Hmsg.
  unfold RuleEngine.calculateConfidence, RuleEngine.messageToLowerCase.
  rewrite Hmsg. cbn [bind].
  fold (titleTest rule msg) (frameworkTest rule context) (nameTest rule error).
  destruct (titleTest rule msg), (frameworkTest rule context), (nameTest rule error),
    (ErrorRule.severity rule) as [[]|]; reflexivity.
Qed.

Lemma calculateConfidence_missing rule error context :
  JsError.message error = None ->
  RuleEngine.calculateConfidence rule error context = Throw (cannotRead "toLowerCase").
Proof.
  intros Hmsg.
  unfold RuleEngine.calculateConfidence, RuleEngine.messageToLowerCase.
  now rewrite Hmsg.
Qed.

Lemma specConfidence_scores t f n s : In (specConfidence t f n s) scores.
Proof.
  destruct t, f, n, s as [[]|]; vm_compute; tauto.
Qed.

(** Sums are rounded as doubles: 0.5 + 0.2 + 0.1 falls just below
    0.5 + 0.3, so two scores that agree on paper need not tie. *)
Example specConfidence_rounding :
  (specConfidence false true true None <? specConfidence true false false None)%float
  = true.
Proof. reflexivity. Qed.

Lemma calculateConfidence_scores rule error context c :
  RuleEngine.calculateConfidence rule error context = Normal c -> In c scores.
Proof.
  destruct (JsError.message error) as [msg|] eqn:Hmsg.
  - rewrite (calculateConfidence_spec _ _ _ _ Hmsg). intros [= <-].
    apply specConfidence_scores.
  - now rewrite calculateConfidence_missing.
Qed.

Lemma scores_ordered x y z :
  In x scores -> In y scores -> In z scores -> scoresOrderedAt x y z = true.
Proof.
  assert (H : forallb (fun x => forallb (fun y => forallb (fun z =>
                scoresOrderedAt x y z) scores) scores) scores = true)
    by (vm_compute; reflexivity).
  intros Hx Hy Hz.
  rewrite forallb_forall in H. specialize (H x Hx).
  rewrite forallb_forall in H. specialize (H y Hy).
  rewrite forallb_forall in H. exact (H z Hz).
Qed.

Ltac scores_facts x y z Hx Hy Hz :=
  let H := fresh "H" in
  pose proof (scores_ordered x y z Hx Hy Hz) as H;
  unfold scoresOrderedAt in H;
  repeat (apply andb_prop in H; let H' := fresh "H" in destruct H as [H H']).

Lemma score_difference x y :
  In x scores -> In y scores -> (0 <? y - x)%float = (x <? y)%float.
Proof.
  intros Hx Hy. scores_facts x y x Hx Hy Hx.
  now apply Bool.eqb_prop.
Qed.

Lemma score_total x y :
  In x scores -> In y scores -> (x <? y)%float = false -> (y <=? x)%float = true.
Proof.
  intros Hx Hy Hlt. scores_facts x y x Hx Hy Hx.
  rewrite Hlt in *. assumption.
Qed.

Lemma score_ltb_leb x y :
  In x scores -> In y scores -> (x <? y)%float = true -> (x <=? y)%float = true.
Proof.
  intros Hx Hy Hlt. scores_facts x y x Hx Hy Hx.
  rewrite Hlt in *. assumption.
Qed.

Lemma score_leb_trans x y z :
  In x scores -> In y scores -> In z scores ->
  (x <=? y)%float = true -> (y <=? z)%float = true -> (x <=? z)%float = true.
Proof.
  intros Hx Hy Hz Hxy Hyz. scores_facts x y z Hx Hy Hz.
  rewrite Hxy, Hyz in *. assumption.
Qed.

Lemma score_leb_refl x : In x scores -> (x <=? x)%float = true.
Proof.
  intros Hx. destruct (x <? x)%float eqn:Hlt.
  - now apply score_ltb_leb.
  - now apply score_total.
Qed.

Lemma score_bounds x :
  In x scores -> (0 <=? x)%float = true /\ (x <=? 1)%float = true.
Proof.
  intros Hx. scores_facts x x x Hx Hx Hx. now split.
Qed.

(** ** Sorting by confidence *)

Lemma sortInsert_cons {A} (cmp : A -> A -> float) x l : sortInsert cmp x l <> [].
Proof. destruct l as [|y l]; simpl; [|destruct (_ <? _)%float]; discriminate. Qed.

Lemma Array_sort_nil {A} (cmp : A -> A -> float) l : Array_sort cmp l = [] -> l = [].
Proof.
  destruct l as [|x l]; [reflexivity|]. simpl. intros H.
  now apply sortInsert_cons in H.
Qed.

(** The first element after sorting splits the array: everything before it
    scored strictly lower, nothing after it scored higher. *)
Lemma Array_sort_head l : forall m rest,
  List.Forall scored l ->
  Array_sort RuleEngine.byConfidence l = m :: rest ->
  exists l1 l2, l = l1 ++ m :: l2
    /\ List.Forall (below m) l1 /\ List.Forall (notAbove m) l2.
Proof.
  induction l as [|a l IH]; intros m rest Hl Hsort; [discriminate|].
  apply List.Forall_cons_iff in Hl as [Ha Hl]. simpl in Hsort.
  destruct (Array_sort RuleEngine.byConfidence l) as [|y t] eqn:E.
  - apply Array_sort_nil in E as ->. injection Hsort as <- _.
    exists [], []. repeat split; constructor.
  - destruct (IH y t Hl eq_refl) as (l1 & l2 & -> & H1 & H2).
    assert (Hy : scored y)
      by (rewrite List.Forall_forall in Hl; apply Hl, in_elt).
    simpl in Hsort. unfold RuleEngine.byConfidence in Hsort at 1.
    rewrite (score_difference _ _ Ha Hy) in Hsort.
    destruct (RuleMatch.confidence a <? RuleMatch.confidence y)%float eqn:Hlt.
    + injection Hsort as <- _. exists (a :: l1), l2.
      repeat split; [constructor|]; assumption.
    + injection Hsort as <- _. exists [], (l1 ++ y :: l2).
      assert (Hya : notAbove a y) by (apply score_total; assumption).
      repeat split; [constructor|].
      rewrite List.Forall_forall in *. intros m' Hm'.
      assert (Hm'y : notAbove y m').
      { apply in_app_or in Hm' as [Hm'|[<-|Hm']].
        - apply score_ltb_leb; [apply Hl, in_or_app; now left | exact Hy | now apply H1].
        - now apply score_leb_refl.
        - now apply H2. }
      eapply score_leb_trans; [apply Hl, Hm' | exact Hy | exact Ha | exact Hm'y | exact Hya].
Qed.

(** ** The candidates of a lookup *)

Lemma collectMatches_normal rules error context : forall matches result,
  RuleEngine.collectMatches rules error context matches = Normal result ->
  result = matches ++ candidates rules error context.
Proof.
  induction rules as [|rule rest IH]; intros matches result; simpl.
  - intros [= <-]. now rewrite app_nil_r.
  - destruct (ErrorRule.match_ rule error) as [[]|]; simpl; [| apply IH | discriminate].
    destruct (RuleEngine.calculateConfidence rule error context); simpl; [|discriminate].
    intros H. apply IH in H. now rewrite <- app_assoc in H.
Qed.

Lemma collectMatches_returns rules error context msg : forall matches,
  JsError.message error = Some msg ->
  predicatesReturn rules error ->
  RuleEngine.collectMatches rules error context matches
  = Normal (matches ++ candidates rules error context).
Proof.
  intros matches Hmsg Hret. revert matches.
  induction Hret as [|rule rest [b Hb] _ IH]; intros matches; simpl.
  - now rewrite app_nil_r.
  - rewrite Hb, (calculateConfidence_spec _ _ _ _ Hmsg). destruct b; simpl.
    + now rewrite IH, <- app_assoc.
    + apply IH.
Qed.

Lemma candidates_scored rules error context :
  List.Forall scored (candidates rules error context).
Proof.
  induction rules as [|rule rest IH]; simpl; [constructor|].
  destruct (ErrorRule.match_ rule error) as [[]|]; try assumption.
  destruct (RuleEngine.calculateConfidence rule error context) eqn:E; try assumption.
  constructor; [|assumption]. now apply calculateConfidence_scores in E.
Qed.

Lemma candidates_In rules error context rule c :
  In rule rules -> candidate error context rule c ->
  In (RuleMatch.mk rule error c) (candidates rules error context).
Proof.
  intros Hin [Hm Hc]. induction rules as [|r rest IH]; simpl; [contradiction|].
  destruct Hin as [->|Hin].
  - rewrite Hm, Hc. now left.
  - destruct (ErrorRule.match_ r error) as [[]|]; auto.
    destruct (RuleEngine.calculateConfidence r error context); auto.
    right. auto.
Qed.

Lemma candidates_split rules error context : forall l1 m l2,
  candidates rules error context = l1 ++ m :: l2 ->
  exists pre post,
    rules = pre ++ RuleMatch.rule m :: post
    /\ candidates pre error context = l1
    /\ candidates post error context = l2
    /\ RuleMatch.error m = error
    /\ candidate error context (RuleMatch.rule m) (RuleMatch.confidence m).
Proof.
  induction rules as [|r rest IH]; intros l1 m l2 H; simpl in H.
  - now destruct l1.
  - assert (Hskip : candidates rest error context = l1 ++ m :: l2 ->
      candidates [r] error context = [] ->
      exists pre post,
        r :: rest = pre ++ RuleMatch.rule m :: post
        /\ candidates pre error context = l1
        /\ candidates post error context = l2
        /\ RuleMatch.error m = error
        /\ candidate error context (RuleMatch.rule m) (RuleMatch.confidence m)).
    { intros Hrest Hr. destruct (IH _ _ _ Hrest) as (pre & post & -> & H1 & H2 & H3).
      exists (r :: pre), post. repeat split; try apply H3; try assumption.
      simpl in Hr |- *.
      destruct (ErrorRule.match_ r error) as [[]|]; try assumption.
      destruct (RuleEngine.calculateConfidence r error context); [discriminate | assumption]. }
    destruct (ErrorRule.match_ r error) as [[]|] eqn:Hm;
      [|apply Hskip; [assumption | simpl; now rewrite Hm]..].
    destruct (RuleEngine.calculateConfidence r error context) as [c|] eqn:Hc;
      [|apply Hskip; [assumption | simpl; now rewrite Hm, Hc]].
    destruct l1 as [|m1 l1]; simpl in H; injection H as <- H.
    + exists [], rest. now repeat split.
    + destruct (IH _ _ _ H) as (pre & post & -> & H1 & H2 & H3).
      exists (r :: pre), post. repeat split; try apply H3; try assumption.
      simpl. now rewrite Hm, Hc, H1.
Qed.

Lemma candidates_nil rules error context msg :
  JsError.message error = Some msg ->
  candidates rules error context = []
  <-> List.Forall (fun rule => ErrorRule.match_ rule error <> Normal true) rules.
Proof.
  intros Hmsg. induction rules as [|r rest IH]; simpl.
  - split; [constructor | reflexivity].
  - rewrite List.Forall_cons_iff, <- IH, (calculateConfidence_spec _ _ _ _ Hmsg).
    destruct (ErrorRule.match_ r error) as [[]|]; split;
      try discriminate; try tauto; try (intros H; split; [discriminate | exact H]).
Qed.

Lemma findMatch_candidates this error context msg :
  JsError.message error = Some msg ->
  predicatesReturn (RuleEngine.rules this) error ->
  RuleEngine.findMatch this error context
  = Normal (head (Array_sort RuleEngine.byConfidence
                    (candidates (RuleEngine.rules this) error context))).
Proof.
  intros Hmsg Hret. unfold RuleEngine.findMatch.
  rewrite (collectMatches_returns _ _ _ _ [] Hmsg Hret). simpl.
  now destruct (candidates _ _ _).
Qed.

(** ** Claims about [findMatch] *)

Lemma coreRules_return error msg :
  JsError.message error = Some msg -> predicatesReturn coreRules error.
Proof.
  intros Hmsg.
  repeat constructor; cbn; unfold messageIncludes, nameIs, orElse, andAlso;
    rewrite Hmsg; cbn;
    repeat match goal with
           | |- context [if ?b then _ else _] => destruct b; cbn
           end; eauto.
Qed.

(** C1: for an error with a message and rules whose predicates return,
    [findMatch] returns null exactly when no predicate returned true;
    otherwise it returns a candidate such that every candidate stored
    before it scored strictly lower and no candidate stored after it scored
    higher, i.e. the earliest of the candidates of highest confidence. *)
Theorem findMatch_best this error context msg :
  JsError.message error = Some msg ->
  predicatesReturn (RuleEngine.rules this) error ->
  exists result,
    RuleEngine.findMatch this error context = Normal result
    /\ (result = None <->
        List.Forall (fun rule => ErrorRule.match_ rule error <> Normal true)
                    (RuleEngine.rules this))
    /\ forall m, result = Some m ->
         exists pre post,
           RuleEngine.rules this = pre ++ RuleMatch.rule m :: post
           /\ RuleMatch.error m = error
           /\ candidate error context (RuleMatch.rule m) (RuleMatch.confidence m)
           /\ (forall rule c, In rule pre -> candidate error context rule c ->
                 (c <? RuleMatch.confidence m)%float = true)
           /\ (forall rule c, In rule post -> candidate error context rule c ->
                 (c <=? RuleMatch.confidence m)%float = true).
Proof.
  intros Hmsg Hret. eexists. split; [now apply (findMatch_candidates _ _ _ msg)|].
  set (cs := candidates (RuleEngine.rules this) error context).
  pose proof (candidates_scored (RuleEngine.rules this) error context) as Hscored.
  fold cs in Hscored.
  destruct (Array_sort RuleEngine.byConfidence cs) as [|m rest] eqn:Hsort; simpl.
  - apply Array_sort_nil in Hsort. split; [|discriminate].
    rewrite <- (candidates_nil _ _ context _ Hmsg). now split.
  - destruct (Array_sort_head _ _ _ Hscored Hsort) as (l1 & l2 & Hcs & Hl1 & Hl2).
    split.
    + split; [discriminate|]. rewrite <- (candidates_nil _ _ context _ Hmsg).
      fold cs. rewrite Hcs. now destruct l1.
    + intros ? [= <-].
      destruct (candidates_split _ _ _ _ _ _ Hcs) as (pre & post & Hrules & <- & <- & He & Hm).
      exists pre, post. repeat split; try assumption; try apply Hm.
      * intros rule c Hin Hc. rewrite List.Forall_forall in Hl1.
        apply (Hl1 _ (candidates_In _ _ _ _ _ Hin Hc)).
      * intros rule c Hin Hc. rewrite List.Forall_forall in Hl2.
        apply (Hl2 _ (candidates_In _ _ _ _ _ Hin Hc)).
Qed.

Lemma findMatch_best_witness :
  exists result,
    RuleEngine.findMatch (RuleEngine.mk [catchAllRule; untaggedRule]) boom None
    = Normal result
    /\ (result = None <->
        List.Forall (fun rule => ErrorRule.match_ rule boom <> Normal true)
                    [catchAllRule; untaggedRule])
    /\ forall m, result = Some m ->
         exists pre post,
           [catchAllRule; untaggedRule] = pre ++ RuleMatch.rule m :: post
           /\ RuleMatch.error m = boom
           /\ candidate boom None (RuleMatch.rule m) (RuleMatch.confidence m)
           /\ (forall rule c, In rule pre -> candidate boom None rule c ->
                 (c <? RuleMatch.confidence m)%float = true)
           /\ (forall rule c, In rule post -> candidate boom None rule c ->
                 (c <=? RuleMatch.confidence m)%float = true).
Proof.
  apply (findMatch_best (RuleEngine.mk [catchAllRule; untaggedRule]) boom None "boom").
  - reflexivity.
  - unfold predicatesReturn. simpl.
    repeat (apply List.Forall_cons; [eexists; reflexivity|]).
    apply List.Forall_nil.
Defined.

(** Two rules match [boom] with the same score; the one stored first is
    returned, in either order. *)
Example findMatch_tie :
  RuleEngine.findMatch (RuleEngine.mk [catchAllRule; untaggedRule]) boom None
  = Normal (Some (RuleMatch.mk catchAllRule boom 0.5))
  /\ RuleEngine.findMatch (RuleEngine.mk [untaggedRule; catchAllRule]) boom None
     = Normal (Some (RuleMatch.mk untaggedRule boom 0.5)).
Proof. split; reflexivity. Qed.

(** C3: whenever [findMatch] returns a match, its confidence lies in
    [0.0, 1.0]. *)
Theorem findMatch_confidence_range this error context m :
  RuleEngine.findMatch this error context = Normal (Some m) ->
  (0 <=? RuleMatch.confidence m)%float = true
  /\ (RuleMatch.confidence m <=? 1)%float = true.
Proof.
  unfold RuleEngine.findMatch.
  destruct (RuleEngine.collectMatches _ _ _ _) as [matches|] eqn:Hloop; [|discriminate].
  apply collectMatches_normal in Hloop. simpl in Hloop. subst matches. simpl.
  pose proof (candidates_scored (RuleEngine.rules this) error context) as Hscored.
  destruct (length _ =? 0)%nat; [discriminate|].
  destruct (Array_sort _ _) as [|m' rest] eqn:Hsort; [discriminate|].
  intros [= ->].
  destruct (Array_sort_head _ _ _ Hscored Hsort) as (l1 & l2 & Hcs & _).
  apply score_bounds. rewrite Hcs, List.Forall_forall in Hscored.
  apply Hscored, in_elt.
Qed.

Lemma findMatch_confidence_range_witness :
  (0 <=? 0.55)%float = true /\ (0.55 <=? 1)%float = true.
Proof.
  apply (findMatch_confidence_range RuleEngine.ruleEngine mapOfUndefined None
           (RuleMatch.mk undefined_property mapOfUndefined 0.55)).
  vm_compute. reflexivity.
Defined.

(** ** Claims about [calculateConfidence] *)

Lemma truthy_iff (o : option string) :
  truthy o = true <-> exists s, o = Some s /\ s <> "".
Proof.
  destruct o as [s|]; simpl.
  - rewrite negb_true_iff, String.eqb_neq. split; [eauto | now intros (? & [= <-] & ?)].
  - split; [discriminate | now intros (? & [=] & _)].
Qed.

Lemma frameworksInclude_iff rule framework :
  RuleEngine.frameworksInclude rule framework = true
  <-> exists fs, ErrorRule.frameworks rule = Some fs /\ In framework fs.
Proof.
  unfold RuleEngine.frameworksInclude.
  destruct (ErrorRule.frameworks rule) as [fs|].
  - rewrite existsb_exists. split.
    + intros (x & Hin & Heq). apply String.eqb_eq in Heq as ->. eauto.
    + intros (? & [= <-] & Hin). exists framework. now rewrite String.eqb_refl.
  - split; [discriminate | now intros (? & [=] & _)].
Qed.

Lemma titleTest_iff rule msg :
  titleTest rule msg = true <-> titleBonusApplies rule msg.
Proof. apply includes_toLowerCase. Qed.

Lemma frameworkTest_iff rule context :
  frameworkTest rule context = true <-> frameworkBonusApplies rule context.
Proof.
  unfold frameworkTest, frameworkBonusApplies.
  rewrite andb_true_iff, truthy_iff. split.
  - intros [(s & Hs & Hne) Hin]. rewrite Hs in Hin. simpl in Hin.
    apply frameworksInclude_iff in Hin as (fs & Hfs & Hin). now exists s, fs.
  - intros (s & fs & Hs & Hne & Hfs & Hin). rewrite Hs. simpl. split; [eauto|].
    apply frameworksInclude_iff. eauto.
Qed.

Lemma nameTest_iff rule error :
  nameTest rule error = true <-> nameBonusApplies rule error.
Proof.
  unfold nameTest, nameBonusApplies.
  rewrite andb_true_iff, truthy_iff. split.
  - intros [(n & Hn & Hne) Hin]. rewrite Hn in Hin. simpl in Hin.
    apply includes_toLowerCase in Hin. now exists n.
  - intros (n & Hn & Hne & Hin). rewrite Hn. simpl. split; [eauto|].
    now apply includes_toLowerCase.
Qed.

(** C2, as stated, fails: a context whose framework is set to the empty
    string, with a rule listing the empty string among its frameworks,
    scores 0.5 and not the 0.7 the formula gives with the framework bonus. *)
Lemma calculateConfidence_empty_framework :
  frameworkSetAndMember untaggedRule (Some emptyFrameworkContext)
  /\ RuleEngine.calculateConfidence untaggedRule boom (Some emptyFrameworkContext)
     = Normal 0.5%float
  /\ ~ scoredBy (titleBonusApplies untaggedRule "boom")
                (frameworkSetAndMember untaggedRule (Some emptyFrameworkContext))
                (nameBonusApplies untaggedRule boom)
                (ErrorRule.severity untaggedRule) 0.5%float.
Proof.
  assert (HF : frameworkSetAndMember untaggedRule (Some emptyFrameworkContext))
    by (exists "", [""]; simpl; auto).
  split; [exact HF|]. split; [reflexivity|].
  intros (t & f & n & _ & Hf & _ & Hc).
  apply Hf in HF as ->.
  apply (f_equal (fun c => (c <? 0.6)%float)) in Hc.
  destruct t, n; vm_compute in Hc; discriminate.
Qed.

(** C2 (amended): for an error with a message, the confidence is 0.5, plus
    0.3 if the message contains the title ignoring case, plus 0.2 if the
    context's framework is set to a non-empty string that is among the
    rule's frameworks, plus 0.1 if the error's name is non-empty and the
    rule's name contains it ignoring case, plus 0.1 for critical or 0.05 for
    high severity, clamped at 1.0. *)
Theorem calculateConfidence_formula rule error context msg :
  JsError.message error = Some msg ->
  exists c,
    RuleEngine.calculateConfidence rule error context = Normal c
    /\ scoredBy (titleBonusApplies rule msg)
                (frameworkBonusApplies rule context)
                (nameBonusApplies rule error)
                (ErrorRule.severity rule) c.
Proof.
  intros Hmsg. eexists. split; [apply (calculateConfidence_spec _ _ _ _ Hmsg)|].
  exists (titleTest rule msg), (frameworkTest rule context), (nameTest rule error).
  split; [apply titleTest_iff|]. split; [apply frameworkTest_iff|].
  split; [apply nameTest_iff | reflexivity].
Qed.

Lemma calculateConfidence_formula_witness :
  exists c,
    RuleEngine.calculateConfidence react_children mapOfUndefined (Some reactContext)
    = Normal c
    /\ scoredBy (titleBonusApplies react_children
                   "Cannot read properties of undefined (reading 'map')")
                (frameworkBonusApplies react_children (Some reactContext))
                (nameBonusApplies react_children mapOfUndefined)
                (ErrorRule.severity react_children) c.
Proof.
  apply (calculateConfidence_formula react_children mapOfUndefined (Some reactContext)).
  reflexivity.
Defined.

(** ** Faulting predicates and malformed errors *)

Lemma collectMatches_app pre post error context : forall matches,
  RuleEngine.collectMatches (pre ++ post) error context matches
  = let* found := RuleEngine.collectMatches pre error context matches in
    RuleEngine.collectMatches post error context found.
Proof.
  induction pre as [|rule rest IH]; intros matches; simpl; [reflexivity|].
  destruct (ErrorRule.match_ rule error) as [[]|]; simpl; auto.
  destruct (RuleEngine.calculateConfidence rule error context); simpl; auto.
Qed.

(** C4, as stated, fails: with a faulting rule stored before a matching
    one, [findMatch] throws what the predicate threw, whereas treating the
    faulting rule as not matching would return the other rule. *)
Lemma findMatch_faulty_predicate :
  RuleEngine.findMatch (RuleEngine.mk [faultyRule; catchAllRule]) boom None
  = Throw (JsString "predicate failed")
  /\ RuleEngine.findMatch (RuleEngine.mk [catchAllRule]) boom None
     = Normal (Some (RuleMatch.mk catchAllRule boom 0.5))
  /\ RuleEngine.findMatch (RuleEngine.mk [faultyRule; catchAllRule]) boom None
     <> RuleEngine.findMatch (RuleEngine.mk [catchAllRule]) boom None.
Proof.
  split; [reflexivity|]. split; [reflexivity|].
  vm_compute. discriminate.
Qed.

(** C4 (amended): when the predicate of a rule throws and the rules stored
    before it were evaluated without a fault, [findMatch] propagates what
    the predicate threw, whatever rules are stored after it. *)
Theorem findMatch_propagates this pre rule post error context thrown :
  RuleEngine.rules this = pre ++ rule :: post ->
  (exists matches, RuleEngine.collectMatches pre error context [] = Normal matches) ->
  ErrorRule.match_ rule error = Throw thrown ->
  RuleEngine.findMatch this error context = Throw thrown.
Proof.
  intros Hrules [matches Hpre] Hthrow. unfold RuleEngine.findMatch.
  rewrite Hrules, collectMatches_app, Hpre. simpl. now rewrite Hthrow.
Qed.

Lemma findMatch_propagates_witness :
  RuleEngine.findMatch (RuleEngine.mk [catchAllRule; faultyRule; catchAllRule]) boom None
  = Throw (JsString "predicate failed").
Proof.
  apply (findMatch_propagates (RuleEngine.mk [catchAllRule; faultyRule; catchAllRule])
           [catchAllRule] faultyRule [catchAllRule] boom None).
  - reflexivity.
  - eexists. reflexivity.
  - reflexivity.
Defined.

(** C5, as stated, fails: on a value without a message the shipped engine
    throws a [TypeError], while on the same value with an empty message it
    returns null. *)
Lemma findMatch_missing_message :
  RuleEngine.findMatch RuleEngine.ruleEngine noMessage None
  = Throw (cannotRead "includes")
  /\ RuleEngine.findMatch RuleEngine.ruleEngine (withEmptyMessage noMessage) None
     = Normal None
  /\ RuleEngine.findMatch RuleEngine.ruleEngine noMessage None
     <> RuleEngine.findMatch RuleEngine.ruleEngine (withEmptyMessage noMessage) None.
Proof.
  split; [reflexivity|]. split; [reflexivity|].
  vm_compute. discriminate.
Qed.

(** C5 (amended): for a value whose message is missing, scoring throws a
    [TypeError] for every rule and context, and so does [findMatch] on every
    engine built over the shipped catalogue, whose first predicate reads the
    message. *)
Theorem missing_message_faults error :
  JsError.message error = None ->
  (forall rule context,
     RuleEngine.calculateConfidence rule error context
     = Throw (cannotRead "toLowerCase"))
  /\ (forall customRules added context,
        RuleEngine.findMatch
          (RuleEngine.addRules (RuleEngine.new customRules) added) error context
        = Throw (cannotRead "includes")).
Proof.
  intros Hmsg. split.
  - intros rule context. now apply calculateConfidence_missing.
  - intros customRules added context.
    unfold RuleEngine.findMatch, RuleEngine.addRules, RuleEngine.new, coreRules.
    cbn [RuleEngine.rules app RuleEngine.collectMatches].
    unfold undefined_property at 1. cbn [ErrorRule.match_].
    unfold orElse, messageIncludes. now rewrite Hmsg.
Qed.

Lemma missing_message_faults_witness :
  (forall rule context,
     RuleEngine.calculateConfidence rule noMessage context
     = Throw (cannotRead "toLowerCase"))
  /\ (forall customRules added context,
        RuleEngine.findMatch
          (RuleEngine.addRules (RuleEngine.new customRules) added) noMessage context
        = Throw (cannotRead "includes")).
Proof. apply (missing_message_faults noMessage). reflexivity. Defined.

(** ** The shipped catalogue on a concrete error *)

(** C6, as stated, fails: the lookup does return the undefined-property
    rule, but with a confidence below 0.8, because the message does not
    contain the rule's title. *)
Lemma findMatch_mapOfUndefined_below :
  ~ exists m,
      RuleEngine.findMatch RuleEngine.ruleEngine mapOfUndefined None = Normal (Some m)
      /\ RuleMatch.rule m = undefined_property
      /\ (0.8 <=? RuleMatch.confidence m)%float = true.
Proof.
  intros (m & Hm & _ & Hc).
  assert (E : RuleEngine.findMatch RuleEngine.ruleEngine mapOfUndefined None
              = Normal (Some (RuleMatch.mk undefined_property mapOfUndefined 0.55)))
    by (vm_compute; reflexivity).
  rewrite E in Hm. injection Hm as <-. vm_compute in Hc. discriminate.
Qed.

(** C6 (amended): for that error and no context the shipped catalogue
    returns the undefined-property rule with confidence 0.55: the base 0.5
    and the 0.05 of a high severity, the title bonus not applying. *)
Theorem findMatch_mapOfUndefined :
  RuleEngine.findMatch RuleEngine.ruleEngine mapOfUndefined None
  = Normal (Some (RuleMatch.mk undefined_property mapOfUndefined 0.55))
  /\ titleTest undefined_property "Cannot read properties of undefined (reading 'map')"
     = false
  /\ specConfidence false false false (Some high) = 0.55%float.
Proof.
  split; [|split].
  - vm_compute. reflexivity.
  - vm_compute. reflexivity.
  - vm_compute. reflexivity.
Qed.

(** ** Context and candidates *)

Lemma calculateConfidence_context rule error c1 c2 :
  (exists x y, RuleEngine.calculateConfidence rule error c1 = Normal x
               /\ RuleEngine.calculateConfidence rule error c2 = Normal y)
  \/ (exists thrown, RuleEngine.calculateConfidence rule error c1 = Throw thrown
                     /\ RuleEngine.calculateConfidence rule error c2 = Throw thrown).
Proof.
  destruct (JsError.message error) as [msg|] eqn:Hmsg.
  - left. rewrite !(calculateConfidence_spec _ _ _ _ Hmsg). eauto.
  - right. rewrite !calculateConfidence_missing by assumption. eauto.
Qed.

(** C7: the rules recorded as candidates by the loop of [findMatch], and
    whether the loop completes at all, are the same under any two contexts;
    only the confidences can differ. *)
Theorem candidates_independent_of_context this error c1 c2 :
  mapCompletion (map ruleAndError)
    (RuleEngine.collectMatches (RuleEngine.rules this) error c1 [])
  = mapCompletion (map ruleAndError)
      (RuleEngine.collectMatches (RuleEngine.rules this) error c2 []).
Proof.
  cut (forall matches1 matches2,
         map ruleAndError matches1 = map ruleAndError matches2 ->
         mapCompletion (map ruleAndError)
           (RuleEngine.collectMatches (RuleEngine.rules this) error c1 matches1)
         = mapCompletion (map ruleAndError)
             (RuleEngine.collectMatches (RuleEngine.rules this) error c2 matches2)).
  { intros H. now apply H. }
  induction (RuleEngine.rules this) as [|rule rest IH];
    intros matches1 matches2 Hsame; simpl.
  - now rewrite Hsame.
  - destruct (ErrorRule.match_ rule error) as [[]|]; simpl; auto.
    destruct (calculateConfidence_context rule error c1 c2)
      as [(x & y & -> & ->)|(thrown & -> & ->)]; simpl; [|reflexivity].
    apply IH. rewrite !map_app. now rewrite Hsame.
Qed.

(** ** Appending rules *)

Lemma candidates_app pre post error context :
  candidates (pre ++ post) error context
  = candidates pre error context ++ candidates post error context.
Proof.
  induction pre as [|rule rest IH]; simpl; [reflexivity|].
  destruct (ErrorRule.match_ rule error) as [[]|]; auto.
  destruct (RuleEngine.calculateConfidence rule error context); auto.
  now rewrite IH.
Qed.

Lemma candidates_none rules error context :
  List.Forall (fun rule => ErrorRule.match_ rule error = Normal false) rules ->
  candidates rules error context = [].
Proof.
  induction 1 as [|rule rest Hrule _ IH]; simpl; [reflexivity|]. now rewrite Hrule.
Qed.

(** C8: [addRules] puts the given rules after the existing ones, which
    keep their order, and a later [findMatch] on an error that only one of
    the appended rules matches returns that rule. *)
Theorem addRules_appends this added :
  RuleEngine.rules (RuleEngine.addRules this added) = RuleEngine.rules this ++ added
  /\ forall error msg context before rule after,
       JsError.message error = Some msg ->
       added = before ++ rule :: after ->
       ErrorRule.match_ rule error = Normal true ->
       List.Forall (fun other => ErrorRule.match_ other error = Normal false)
                   (RuleEngine.rules this ++ before ++ after) ->
       exists c,
         RuleEngine.calculateConfidence rule error context = Normal c
         /\ RuleEngine.findMatch (RuleEngine.addRules this added) error context
            = Normal (Some (RuleMatch.mk rule error c)).
Proof.
  split; [reflexivity|].
  intros error msg context before rule after Hmsg -> Hrule Hothers.
  rewrite !List.Forall_app in Hothers. destruct Hothers as (Hold & Hbefore & Hafter).
  pose proof (calculateConfidence_spec rule error context msg Hmsg) as Hc.
  eexists. split; [exact Hc|].
  rewrite (findMatch_candidates _ _ _ msg Hmsg).
  - simpl. rewrite !candidates_app. simpl. rewrite Hrule, Hc.
    now rewrite !candidates_none by assumption.
  - unfold predicatesReturn. simpl. rewrite !List.Forall_app, List.Forall_cons_iff.
    repeat split; eauto;
      eapply List.Forall_impl; try eassumption; simpl; eauto.
Qed.

Lemma addRules_appends_witness :
  RuleEngine.findMatch (RuleEngine.addRules RuleEngine.ruleEngine [untaggedRule])
    boom None
  = Normal (Some (RuleMatch.mk untaggedRule boom 0.5)).
Proof.
  destruct (addRules_appends RuleEngine.ruleEngine [untaggedRule]) as [_ H].
  destruct (H boom "boom" None [] untaggedRule []) as (c & Hc & Hfound).
  - reflexivity.
  - reflexivity.
  - reflexivity.
  - simpl. repeat (apply List.Forall_cons; [reflexivity|]). apply List.Forall_nil.
  - rewrite Hfound. injection Hc as <-. reflexivity.
Defined.

(** ** Statistics *)

Lemma fold_countRule_totalRules rules : forall stats,
  RuleEngine.totalRules (fold_left RuleEngine.countRule rules stats)
  = RuleEngine.totalRules stats.
Proof.
  induction rules as [|rule rest IH]; intros stats; simpl; [reflexivity|].
  now rewrite IH.
Qed.

(** C9: [getStats().totalRules] is the sum, over the six categories, of
    the number of rules [getRulesByCategory] returns. *)
Theorem totalRules_by_category this :
  RuleEngine.totalRules (RuleEngine.getStats this)
  = length (RuleEngine.getRulesByCategory this javascript)
    + length (RuleEngine.getRulesByCategory this nodejs)
    + length (RuleEngine.getRulesByCategory this react)
    + length (RuleEngine.getRulesByCategory this network)
    + length (RuleEngine.getRulesByCategory this async)
    + length (RuleEngine.getRulesByCategory this json).
Proof.
  unfold RuleEngine.getStats, RuleEngine.getRulesByCategory.
  rewrite fold_countRule_totalRules. simpl.
  induction (RuleEngine.rules this) as [|rule rest IH]; [reflexivity|].
  simpl. rewrite IH. destruct (ErrorRule.category rule); simpl; lia.
Qed.

(** ** [prettyTry] *)

Lemma getErrorExplanation_message error msg :
  JsError.message error = Some msg ->
  exists explanation,
    Core.getErrorExplanation error = Normal explanation
    /\ ErrorExplanation.message explanation = msg.
Proof.
  intros Hmsg. unfold Core.getErrorExplanation. rewrite Hmsg.
  destruct (Core.memberAt msg) as [[mapping|]|];
    [| |destruct (Core.findPartial msg Core.errorMappings)];
    eexists; split; reflexivity.
Qed.

(** C10: [prettyTry] is to turn every exception of the function into a
    failure result, and does not: when the function throws an object that
    cannot be converted to a string, the [String(error)] of the handler
    throws in turn and [prettyTry] propagates that [TypeError]. *)
Lemma prettyTry_propagates :
  Core.prettyTry (fun _ : unit => @Throw JsValue unit bareObject)
  = Throw (typeError "Cannot convert object to primitive value")
  /\ ~ forall (T : Type) (fn : unit -> Result T),
         exists result, Core.prettyTry fn = Normal result.
Proof.
  split; [reflexivity|].
  intros H. destruct (H unit (fun _ => Throw bareObject)) as [result Hresult].
  discriminate Hresult.
Qed.

(** The same happens for an [Error] whose message is missing. *)
Example prettyTry_error_without_message :
  Core.prettyTry (fun _ : unit => @Throw JsValue unit (JsErrorObject noMessage))
  = Throw (cannotRead "includes").
Proof. reflexivity. Qed.

(** X18: if the function returns [v], [prettyTry] returns a success
    carrying [v]; if it throws an [Error] that has a message, or a value
    that is not an [Error] and that [String] converts, [prettyTry] returns a
    failure whose explanation carries that message, respectively that
    conversion; nothing is propagated in these cases. *)
Theorem prettyTry_results {T : Type} (fn : unit -> Result T) :
  (forall v, fn tt = Normal v ->
     Core.prettyTry fn
     = Normal (PrettyTryResult.mk true (Some v) None))
  /\ (forall e msg,
        fn tt = Throw (JsErrorObject e) -> JsError.message e = Some msg ->
        exists explanation,
          Core.prettyTry fn
          = Normal (PrettyTryResult.mk false None (Some explanation))
          /\ ErrorExplanation.message explanation = msg)
  /\ (forall thrown s,
        fn tt = Throw thrown -> instanceofError thrown = false ->
        String_ thrown = Normal s ->
        exists explanation,
          Core.prettyTry fn
          = Normal (PrettyTryResult.mk false None (Some explanation))
          /\ ErrorExplanation.message explanation = s).
Proof.
  unfold Core.prettyTry. repeat split.
  - intros v ->. reflexivity.
  - intros e msg -> Hmsg.
    destruct (getErrorExplanation_message e msg Hmsg) as (explanation & -> & Hm).
    now exists explanation.
  - intros thrown s -> Hne Hs.
    destruct thrown; try discriminate Hne; rewrite Hs; simpl;
      eexists; split; reflexivity.
Qed.

Lemma prettyTry_results_witness :
  Core.prettyTry (fun _ : unit => @Normal JsValue nat 7)
  = Normal (PrettyTryResult.mk true (Some 7) None)
  /\ (exists explanation,
        Core.prettyTry (fun _ : unit => @Throw JsValue nat (JsErrorObject boom))
        = Normal (PrettyTryResult.mk false None (Some explanation))
        /\ ErrorExplanation.message explanation = "boom")
  /\ (exists explanation,
        Core.prettyTry (fun _ : unit => @Throw JsValue nat (JsString "boom"))
        = Normal (PrettyTryResult.mk false None (Some explanation))
        /\ ErrorExplanation.message explanation = "boom").
Proof.
  split; [|split].
  - apply (prettyTry_results (fun _ : unit => @Normal JsValue nat 7)). reflexivity.
  - apply (prettyTry_results (fun _ : unit => @Throw JsValue nat (JsErrorObject boom))
             ) with (e := boom); reflexivity.
  - apply (prettyTry_results (fun _ : unit => @Throw JsValue nat (JsString "boom"))
             ) with (thrown := JsString "boom"); reflexivity.
Defined.

(** * Further properties *)

(** ** The counters of [getStats] *)

Lemma increment_lookup key key' (counts : gmap string nat) :
  RuleEngine.increment key counts !! key'
  = if decide (key = key') then Some (default 0 (counts !! key) + 1)
    else counts !! key'.
Proof.
  unfold RuleEngine.increment. destruct (decide (key = key')) as [->|Hne].
  - apply lookup_insert_eq.
  - now apply lookup_insert_ne.
Qed.

(** A counting loop adds to each key the number of rules filed under it,
    and never stores a zero. *)
Lemma counting_loop (keyOf : ErrorRule.t -> string) rules :
  forall counts : gmap string nat,
  (forall key n, counts !! key = Some n -> 0 < n) ->
  let counts' := fold_left (fun m rule => RuleEngine.increment (keyOf rule) m)
                           rules counts in
  (forall key n, counts' !! key = Some n -> 0 < n)
  /\ forall key, default 0 (counts' !! key)
                 = default 0 (counts !! key) + countKey keyOf key rules.
Proof.
  induction rules as [|rule rest IH]; intros counts Hpos; simpl.
  - split; [exact Hpos|]. intros key. unfold countKey. simpl. lia.
  - destruct (IH (RuleEngine.increment (keyOf rule) counts)) as [Hpos' Hcount].
    + intros key n. rewrite increment_lookup.
      destruct (decide _); [intros [= <-]; lia | apply Hpos].
    + split; [exact Hpos'|]. intros key. rewrite Hcount, increment_lookup.
      unfold countKey. simpl.
      destruct (decide (keyOf rule = key)) as [->|Hne].
      * rewrite bool_decide_eq_true_2 by reflexivity. simpl. lia.
      * rewrite bool_decide_eq_false_2 by assumption. reflexivity.
Qed.

Lemma counting_loop_empty (keyOf : ErrorRule.t -> string) rules key :
  fold_left (fun m rule => RuleEngine.increment (keyOf rule) m) rules ∅ !! key
  = counted (countKey keyOf key rules).
Proof.
  destruct (counting_loop keyOf rules ∅) as [Hpos Hcount].
  { intros k n. now rewrite lookup_empty. }
  specialize (Hcount key). rewrite lookup_empty in Hcount. simpl in Hcount.
  unfold counted. destruct (fold_left _ _ _ !! key) as [n|] eqn:E; simpl in Hcount.
  - apply Hpos in E. rewrite <- Hcount.
    destruct (Nat.eqb_spec n 0); [lia | reflexivity].
  - now rewrite <- Hcount.
Qed.

Lemma fold_countRule_byCategory rules : forall stats,
  RuleEngine.byCategory (fold_left RuleEngine.countRule rules stats)
  = fold_left (fun m rule =>
                 RuleEngine.increment (RuleEngine.categoryKey (ErrorRule.category rule)) m)
              rules (RuleEngine.byCategory stats).
Proof.
  induction rules as [|rule rest IH]; intros stats; simpl; [reflexivity|].
  now rewrite IH.
Qed.

Lemma fold_countRule_bySeverity rules : forall stats,
  RuleEngine.bySeverity (fold_left RuleEngine.countRule rules stats)
  = fold_left (fun m rule =>
                 RuleEngine.increment (RuleEngine.severityKey (ErrorRule.severity rule)) m)
              rules (RuleEngine.bySeverity stats).
Proof.
  induction rules as [|rule rest IH]; intros stats; simpl; [reflexivity|].
  now rewrite IH.
Qed.

Lemma categoryKey_inj c1 c2 :
  RuleEngine.categoryKey c1 = RuleEngine.categoryKey c2 -> c1 = c2.
Proof. destruct c1, c2; simpl; intros H; try reflexivity; discriminate H. Qed.

Lemma severityKey_inj s1 s2 :
  RuleEngine.severityKey s1 = RuleEngine.severityKey s2 -> s1 = s2.
Proof.
  destruct s1 as [[]|], s2 as [[]|]; simpl; intros H;
    try reflexivity; discriminate H.
Qed.

(** X1: [getStats().byCategory] holds, under each category's name, the
    number of rules [getRulesByCategory] returns for it, and holds no entry
    at all for a category without rules or for any other key. *)
Theorem byCategory_counts this :
  (forall c,
     RuleEngine.byCategory (RuleEngine.getStats this) !! RuleEngine.categoryKey c
     = counted (length (RuleEngine.getRulesByCategory this c)))
  /\ (forall key, (forall c, key <> RuleEngine.categoryKey c) ->
        RuleEngine.byCategory (RuleEngine.getStats this) !! key = None).
Proof.
  unfold RuleEngine.getStats. rewrite fold_countRule_byCategory. simpl. split.
  - intros c. rewrite counting_loop_empty. f_equal.
    unfold countKey, RuleEngine.getRulesByCategory. f_equal.
    apply List.filter_ext. intros rule. apply bool_decide_ext.
    split; [apply categoryKey_inj | now intros ->].
  - intros key Hkey. rewrite counting_loop_empty.
    replace (countKey _ key _) with 0; [reflexivity|].
    unfold countKey. induction (RuleEngine.rules this) as [|rule rest IH];
      [reflexivity|]. simpl.
    rewrite bool_decide_eq_false_2; [exact IH|].
    intros E. now apply (Hkey (ErrorRule.category rule)).
Qed.

Lemma byCategory_counts_witness :
  RuleEngine.byCategory (RuleEngine.getStats RuleEngine.ruleEngine) !! "python" = None.
Proof.
  apply (byCategory_counts RuleEngine.ruleEngine).
  intros c. destruct c; discriminate.
Defined.

(** X2: [getStats().bySeverity] holds, under each severity's name and
    under 'unknown' for the rules without one, the number of rules of that
    severity, and no entry for a severity no rule has. *)
Theorem bySeverity_counts this s :
  RuleEngine.bySeverity (RuleEngine.getStats this) !! RuleEngine.severityKey s
  = counted (length (List.filter
                       (fun rule => bool_decide (ErrorRule.severity rule = s))
                       (RuleEngine.rules this))).
Proof.
  unfold RuleEngine.getStats. rewrite fold_countRule_bySeverity. simpl.
  rewrite counting_loop_empty. f_equal. unfold countKey. f_equal.
  apply List.filter_ext. intros rule. apply bool_decide_ext.
  split; [apply severityKey_inj | now intros ->].
Qed.

(** ** More on scoring *)

Lemma specConfidence_title f n s :
  (0.8 <=? specConfidence true f n s)%float = true.
Proof. destruct f, n, s as [[]|]; reflexivity. Qed.

Lemma specConfidence_framework t n s :
  (specConfidence t false n s <=? specConfidence t true n s)%float = true.
Proof. destruct t, n, s as [[]|]; reflexivity. Qed.

Lemma specConfidence_severity t f n s1 s2 :
  severityRank s1 <= severityRank s2 ->
  (specConfidence t f n s1 <=? specConfidence t f n s2)%float = true.
Proof.
  destruct t, f, n, s1 as [[]|], s2 as [[]|]; simpl; intros H;
    try reflexivity; lia.
Qed.

Lemma specConfidence_severity_eq t f n s1 s2 :
  severityRank s1 = severityRank s2 ->
  specConfidence t f n s1 = specConfidence t f n s2.
Proof.
  destruct s1 as [[]|], s2 as [[]|]; simpl; intros H;
    try reflexivity; discriminate H.
Qed.

(** X3: a match [findMatch] returns never has a confidence below 0.5. *)
Theorem findMatch_confidence_floor this error context m :
  RuleEngine.findMatch this error context = Normal (Some m) ->
  (0.5 <=? RuleMatch.confidence m)%float = true.
Proof.
  unfold RuleEngine.findMatch.
  destruct (RuleEngine.collectMatches _ _ _ _) as [matches|] eqn:Hloop; [|discriminate].
  apply collectMatches_normal in Hloop. simpl in Hloop. subst matches. simpl.
  pose proof (candidates_scored (RuleEngine.rules this) error context) as Hscored.
  destruct (length _ =? 0)%nat; [discriminate|].
  destruct (Array_sort _ _) as [|m' rest] eqn:Hsort; [discriminate|].
  intros [= ->].
  destruct (Array_sort_head _ _ _ Hscored Hsort) as (l1 & l2 & Hcs & _).
  rewrite Hcs, List.Forall_forall in Hscored.
  assert (Hm : scored m) by apply Hscored, in_elt.
  pose proof (scores_ordered _ _ _ Hm Hm Hm) as H. unfold scoresOrderedAt in H.
  repeat (apply andb_prop in H; destruct H as [H ?]). assumption.
Qed.

Lemma findMatch_confidence_floor_witness :
  (0.5 <=? 0.55)%float = true.
Proof.
  apply (findMatch_confidence_floor RuleEngine.ruleEngine mapOfUndefined None
           (RuleMatch.mk undefined_property mapOfUndefined 0.55)).
  vm_compute. reflexivity.
Defined.

(** X4: when the error's message contains the rule's title, ignoring
    case, the confidence is at least 0.8, whatever else applies. *)
Theorem calculateConfidence_title rule error context msg :
  JsError.message error = Some msg ->
  containsIgnoringCase msg (ErrorRule.title rule) ->
  exists c,
    RuleEngine.calculateConfidence rule error context = Normal c
    /\ (0.8 <=? c)%float = true.
Proof.
  intros Hmsg Htitle. eexists. split; [apply (calculateConfidence_spec _ _ _ _ Hmsg)|].
  apply titleTest_iff in Htitle. rewrite Htitle. apply specConfidence_title.
Qed.

Lemma calculateConfidence_title_witness :
  exists c,
    RuleEngine.calculateConfidence untaggedRule
      (JsError.mk (Some "A CUSTOM FAILURE occurred") (Some "Error") None) None
    = Normal c
    /\ (0.8 <=? c)%float = true.
Proof.
  apply (calculateConfidence_title untaggedRule _ None "A CUSTOM FAILURE occurred").
  - reflexivity.
  - exists "A ", "CUSTOM FAILURE", " occurred". split; reflexivity.
Defined.

(** X5: a context never lowers a score: with any context the confidence
    is at least the confidence without one, and it is the same unless the
    context's framework is a non-empty string the rule lists. *)
Theorem calculateConfidence_context_raises rule error context msg :
  JsError.message error = Some msg ->
  exists c0 c,
    RuleEngine.calculateConfidence rule error None = Normal c0
    /\ RuleEngine.calculateConfidence rule error context = Normal c
    /\ (c0 <=? c)%float = true
    /\ (~ frameworkBonusApplies rule context -> c = c0).
Proof.
  intros Hmsg. do 2 eexists.
  split; [apply (calculateConfidence_spec _ _ _ _ Hmsg)|].
  split; [apply (calculateConfidence_spec _ _ _ _ Hmsg)|].
  change (frameworkTest rule None) with false.
  rewrite <- frameworkTest_iff. destruct (frameworkTest rule context).
  - split; [apply specConfidence_framework | now intros []].
  - split; [|reflexivity]. apply score_leb_refl, specConfidence_scores.
Qed.

Lemma calculateConfidence_context_raises_witness :
  exists c0 c,
    RuleEngine.calculateConfidence react_children mapOfUndefined None = Normal c0
    /\ RuleEngine.calculateConfidence react_children mapOfUndefined (Some reactContext)
       = Normal c
    /\ (c0 <=? c)%float = true
    /\ (~ frameworkBonusApplies react_children (Some reactContext) -> c = c0).
Proof.
  apply (calculateConfidence_context_raises react_children mapOfUndefined
           (Some reactContext) "Cannot read properties of undefined (reading 'map')").
  reflexivity.
Defined.

(** X6: of two rules that differ only in severity, a critical one scores
    at least as high as a high one, which scores at least as high as any
    other; low, medium and a missing severity score the same. *)
Theorem calculateConfidence_severity r1 r2 error context msg :
  JsError.message error = Some msg ->
  sameButSeverity r1 r2 ->
  exists c1 c2,
    RuleEngine.calculateConfidence r1 error context = Normal c1
    /\ RuleEngine.calculateConfidence r2 error context = Normal c2
    /\ (severityRank (ErrorRule.severity r1) <= severityRank (ErrorRule.severity r2) ->
        (c1 <=? c2)%float = true)
    /\ (severityRank (ErrorRule.severity r1) = severityRank (ErrorRule.severity r2) ->
        c1 = c2).
Proof.
  intros Hmsg (Htitle & Hname & Hfw). do 2 eexists.
  split; [apply (calculateConfidence_spec _ _ _ _ Hmsg)|].
  split; [apply (calculateConfidence_spec _ _ _ _ Hmsg)|].
  assert (Ht : titleTest r1 msg = titleTest r2 msg)
    by (unfold titleTest; now rewrite Htitle).
  assert (Hf : frameworkTest r1 context = frameworkTest r2 context)
    by (unfold frameworkTest, RuleEngine.frameworksInclude; now rewrite Hfw).
  assert (Hn : nameTest r1 error = nameTest r2 error)
    by (unfold nameTest; now rewrite Hname).
  rewrite Ht, Hf, Hn. split.
  - apply specConfidence_severity.
  - apply specConfidence_severity_eq.
Qed.

Lemma calculateConfidence_severity_witness :
  exists c1 c2,
    RuleEngine.calculateConfidence highRule boom None = Normal c1
    /\ RuleEngine.calculateConfidence criticalRule boom None = Normal c2
    /\ (severityRank (ErrorRule.severity highRule)
        <= severityRank (ErrorRule.severity criticalRule) ->
        (c1 <=? c2)%float = true)
    /\ (severityRank (ErrorRule.severity highRule)
        = severityRank (ErrorRule.severity criticalRule) ->
        c1 = c2).
Proof.
  apply (calculateConfidence_severity highRule criticalRule boom None "boom").
  - reflexivity.
  - repeat split.
Defined.

Lemma calculateConfidence_framework_only rule error c1 c2 :
  RuleEngine.contextFramework c1 = RuleEngine.contextFramework c2 ->
  RuleEngine.calculateConfidence rule error c1
  = RuleEngine.calculateConfidence rule error c2.
Proof.
  intros H. unfold RuleEngine.calculateConfidence. now rewrite H.
Qed.

(** X7: of a context, [findMatch] reads the framework only: two contexts
    with the same framework (whatever their environment, code, line and
    column) give the same result. *)
Theorem findMatch_framework_only this error c1 c2 :
  RuleEngine.contextFramework c1 = RuleEngine.contextFramework c2 ->
  RuleEngine.findMatch this error c1 = RuleEngine.findMatch this error c2.
Proof.
  intros H. unfold RuleEngine.findMatch. f_equal.
  generalize (@nil RuleMatch.t).
  induction (RuleEngine.rules this) as [|rule rest IH]; intros matches; simpl;
    [reflexivity|].
  rewrite (calculateConfidence_framework_only rule error c1 c2 H).
  destruct (ErrorRule.match_ rule error) as [[]|]; simpl; auto.
  destruct (RuleEngine.calculateConfidence rule error c2); simpl; auto.
Qed.

Lemma findMatch_framework_only_witness :
  RuleEngine.findMatch RuleEngine.ruleEngine mapOfUndefined (Some reactContext)
  = RuleEngine.findMatch RuleEngine.ruleEngine mapOfUndefined
      (Some (ErrorContext.mk (Some "react") (Some node) (Some "app.js")
                             (Some 12%float) None)).
Proof.
  apply (findMatch_framework_only RuleEngine.ruleEngine mapOfUndefined).
  reflexivity.
Defined.

(** ** Appending rules and the winner *)

Lemma score_ltb_not_leb x y :
  In x scores -> In y scores ->
  (x <? y)%float = true -> (y <=? x)%float = false.
Proof.
  assert (H : forallb (fun x => forallb (scoresStrictAt x) scores) scores = true)
    by (vm_compute; reflexivity).
  intros Hx Hy Hlt.
  rewrite forallb_forall in H. specialize (H x Hx).
  rewrite forallb_forall in H. specialize (H y Hy).
  unfold scoresStrictAt in H. rewrite Hlt in H. simpl in H.
  now apply negb_true_iff.
Qed.

(** The split [Array_sort_head] describes is the only one. *)
Lemma first_best_unique a m b a' m' b' :
  a ++ m :: b = a' ++ m' :: b' ->
  List.Forall scored (a ++ m :: b) ->
  List.Forall (below m) a -> List.Forall (notAbove m) b ->
  List.Forall (below m') a' -> List.Forall (notAbove m') b' ->
  m' = m.
Proof.
  intros E Hscored Ha Hb Ha' Hb'.
  assert (Hm : scored m) by (rewrite List.Forall_forall in Hscored; apply Hscored, in_elt).
  assert (Hm' : scored m')
    by (rewrite E, List.Forall_forall in Hscored; apply Hscored, in_elt).
  rewrite List.Forall_forall in Ha, Hb, Ha', Hb'.
  apply List.app_eq_app in E as [l [[-> E]|[-> E]]]; destruct l as [|x l]; simpl in E.
  - now injection E.
  - injection E as <- ->.
    assert (H1 : below m m') by apply Ha, in_elt.
    assert (H2 : notAbove m' m) by apply Hb', in_elt.
    unfold below, notAbove in *.
    now rewrite (score_ltb_not_leb _ _ Hm' Hm H1) in H2.
  - now injection E.
  - injection E as <- ->.
    assert (H1 : below m' m) by apply Ha', in_elt.
    assert (H2 : notAbove m m') by apply Hb, in_elt.
    unfold below, notAbove in *.
    now rewrite (score_ltb_not_leb _ _ Hm Hm' H1) in H2.
Qed.

Lemma candidates_rule_In rules error context m :
  In m (candidates rules error context) -> In (RuleMatch.rule m) rules.
Proof.
  intros Hin. apply in_split in Hin as (l1 & l2 & E).
  apply candidates_split in E as (pre & post & -> & _). apply in_elt.
Qed.

(** X8: appending rules changes the result of a lookup only in favour of
    an appended rule that scores strictly higher: after [addRules], an error
    that had a match gets the same match, or a match of one of the appended
    rules whose confidence is strictly greater.  Existing rules win ties. *)
Theorem findMatch_after_addRules this added error context msg m :
  JsError.message error = Some msg ->
  predicatesReturn (RuleEngine.rules this) error ->
  predicatesReturn added error ->
  RuleEngine.findMatch this error context = Normal (Some m) ->
  exists m',
    RuleEngine.findMatch (RuleEngine.addRules this added) error context
    = Normal (Some m')
    /\ (m' = m
        \/ (In (RuleMatch.rule m') added
            /\ (RuleMatch.confidence m <? RuleMatch.confidence m')%float = true)).
Proof.
  intros Hmsg Hold Hadded Hfound.
  rewrite (findMatch_candidates _ _ _ msg Hmsg Hold) in Hfound.
  rewrite (findMatch_candidates _ _ _ msg Hmsg).
  2:{ unfold predicatesReturn. simpl. rewrite List.Forall_app. now split. }
  simpl. rewrite candidates_app.
  set (cs := candidates (RuleEngine.rules this) error context) in *.
  set (cs' := candidates added error context).
  pose proof (candidates_scored (RuleEngine.rules this) error context) as Hcs.
  pose proof (candidates_scored added error context) as Hcs'.
  fold cs in Hcs. fold cs' in Hcs'.
  destruct (Array_sort RuleEngine.byConfidence cs) as [|m0 rest] eqn:Hsort;
    [discriminate|].
  injection Hfound as ->.
  destruct (Array_sort_head _ _ _ Hcs Hsort) as (l1 & l2 & E & Hl1 & Hl2).
  assert (Hall : List.Forall scored (cs ++ cs')) by (rewrite List.Forall_app; now split).
  destruct (Array_sort RuleEngine.byConfidence (cs ++ cs')) as [|m' rest'] eqn:Hsort'.
  { apply Array_sort_nil in Hsort'. rewrite E in Hsort'. now destruct l1. }
  destruct (Array_sort_head _ _ _ Hall Hsort') as (a & b & E' & Ha & Hb).
  exists m'. split; [reflexivity|].
  assert (Hlater : forall l, a = cs ++ l \/ (a = cs /\ l = []) ->
            In m' cs' -> In (RuleMatch.rule m') added
            /\ (RuleMatch.confidence m <? RuleMatch.confidence m')%float = true).
  { intros l Hl Hin. split; [now apply candidates_rule_In in Hin|].
    rewrite List.Forall_forall in Ha. apply Ha.
    destruct Hl as [->|[-> _]]; rewrite E; [apply in_or_app; left|]; apply in_elt. }
  apply List.app_eq_app in E' as [l [[Hcsl Hb']|[Hal Hcs'l]]].
  - destruct l as [|x l]; simpl in Hb'.
    + right. apply (Hlater []).
      * right. split; [|reflexivity]. rewrite Hcsl. now rewrite app_nil_r.
      * rewrite <- Hb'. now left.
    + injection Hb' as <- ->. left.
      apply List.Forall_app in Hb as [Hl _].
      rewrite E in Hcsl.
      apply (first_best_unique l1 m l2 a m' l Hcsl); try assumption.
      now rewrite <- E.
  - right. apply (Hlater l); [now left|]. rewrite Hcs'l. apply in_elt.
Qed.

Lemma findMatch_after_addRules_witness :
  exists m',
    RuleEngine.findMatch
      (RuleEngine.addRules (RuleEngine.mk [catchAllRule]) [untaggedRule; criticalRule])
      boom None
    = Normal (Some m')
    /\ (m' = RuleMatch.mk catchAllRule boom 0.5
        \/ (In (RuleMatch.rule m') [untaggedRule; criticalRule]
            /\ (RuleMatch.confidence (RuleMatch.mk catchAllRule boom 0.5)
                <? RuleMatch.confidence m')%float = true)).
Proof.
  apply (findMatch_after_addRules (RuleEngine.mk [catchAllRule])
           [untaggedRule; criticalRule] boom None "boom").
  - reflexivity.
  - unfold predicatesReturn. simpl.
    repeat (apply List.Forall_cons; [eexists; reflexivity|]). apply List.Forall_nil.
  - unfold predicatesReturn.
    repeat (apply List.Forall_cons; [eexists; reflexivity|]). apply List.Forall_nil.
  - reflexivity.
Defined.

(** ** When [findMatch] faults, and when it cannot *)

(** X9: an engine built over the shipped catalogue never faults on an
    error that has a message, as long as the custom rules' predicates
    return: every shipped predicate returns on such an error. *)
Theorem findMatch_shipped_returns customRules error context msg :
  JsError.message error = Some msg ->
  predicatesReturn customRules error ->
  exists result,
    RuleEngine.findMatch (RuleEngine.new customRules) error context = Normal result.
Proof.
  intros Hmsg Hcustom. eexists. apply (findMatch_candidates _ _ _ msg Hmsg).
  unfold predicatesReturn, RuleEngine.new. cbn [RuleEngine.rules].
  apply List.Forall_app. split; [|exact Hcustom].
  now apply (coreRules_return error msg).
Qed.

Lemma findMatch_shipped_returns_witness :
  exists result,
    RuleEngine.findMatch (RuleEngine.new [untaggedRule]) boom (Some reactContext)
    = Normal result.
Proof.
  apply (findMatch_shipped_returns [untaggedRule] boom (Some reactContext) "boom").
  - reflexivity.
  - unfold predicatesReturn.
    repeat (apply List.Forall_cons; [eexists; reflexivity|]). apply List.Forall_nil.
Defined.

Lemma collectMatches_throws rules error context thrown : forall matches,
  RuleEngine.collectMatches rules error context matches = Throw thrown ->
  (exists rule, In rule rules /\ ErrorRule.match_ rule error = Throw thrown)
  \/ (JsError.message error = None
      /\ thrown = cannotRead "toLowerCase"
      /\ exists rule, In rule rules /\ ErrorRule.match_ rule error = Normal true).
Proof.
  induction rules as [|rule rest IH]; intros matches; simpl; [discriminate|].
  assert (Hrest : forall ms,
            RuleEngine.collectMatches rest error context ms = Throw thrown ->
            (exists r, In r (rule :: rest) /\ ErrorRule.match_ r error = Throw thrown)
            \/ (JsError.message error = None
                /\ thrown = cannotRead "toLowerCase"
                /\ exists r, In r (rule :: rest)
                             /\ ErrorRule.match_ r error = Normal true)).
  { intros ms H. destruct (IH _ H) as [(r & Hin & Hr)|(Hm & Ht & r & Hin & Hr)].
    - left. exists r. split; [now right | exact Hr].
    - right. repeat split; try assumption. exists r. split; [now right | exact Hr]. }
  destruct (ErrorRule.match_ rule error) as [[]|x] eqn:Hmatch; simpl.
  - destruct (JsError.message error) as [msg|] eqn:Hmsg.
    + rewrite (calculateConfidence_spec _ _ _ _ Hmsg). simpl. apply Hrest.
    + rewrite (calculateConfidence_missing _ _ _ Hmsg). simpl. intros [= <-].
      right. repeat split. exists rule. split; [now left | exact Hmatch].
  - apply Hrest.
  - intros [= <-]. left. exists rule. split; [now left | exact Hmatch].
Qed.

(** X10: what [findMatch] throws is what one of its rules' predicates
    threw, or else the [TypeError] of scoring a matching rule against an
    error without a message; it throws nothing of its own otherwise. *)
Theorem findMatch_throws this error context thrown :
  RuleEngine.findMatch this error context = Throw thrown ->
  (exists rule, In rule (RuleEngine.rules this)
                /\ ErrorRule.match_ rule error = Throw thrown)
  \/ (JsError.message error = None
      /\ thrown = cannotRead "toLowerCase"
      /\ exists rule, In rule (RuleEngine.rules this)
                      /\ ErrorRule.match_ rule error = Normal true).
Proof.
  unfold RuleEngine.findMatch.
  destruct (RuleEngine.collectMatches _ _ _ _) as [matches|x] eqn:Hloop; simpl.
  - destruct (length matches =? 0)%nat; discriminate.
  - intros [= <-]. now apply collectMatches_throws in Hloop.
Qed.

Lemma findMatch_throws_witness :
  (exists rule, In rule [catchAllRule; faultyRule]
                /\ ErrorRule.match_ rule boom = Throw (JsString "predicate failed"))
  \/ (JsError.message boom = None
      /\ JsString "predicate failed" = cannotRead "toLowerCase"
      /\ exists rule, In rule [catchAllRule; faultyRule]
                      /\ ErrorRule.match_ rule boom = Normal true).
Proof.
  apply (findMatch_throws (RuleEngine.mk [catchAllRule; faultyRule]) boom None).
  reflexivity.
Defined.

(** X11: when every predicate returns false, [findMatch] returns null
    whether or not the error has a message and whatever the context:
    scoring, the only part that needs the message, is never reached. *)
Theorem findMatch_no_candidate this error context :
  List.Forall (fun rule => ErrorRule.match_ rule error = Normal false)
              (RuleEngine.rules this) ->
  RuleEngine.findMatch this error context = Normal None.
Proof.
  intros Hnone. unfold RuleEngine.findMatch.
  assert (H : forall matches,
            RuleEngine.collectMatches (RuleEngine.rules this) error context matches
            = Normal matches).
  { induction Hnone as [|rule rest Hrule _ IH]; intros matches; simpl;
      [reflexivity|]. rewrite Hrule. simpl. apply IH. }
  now rewrite H.
Qed.

Lemma findMatch_no_candidate_witness :
  RuleEngine.findMatch (RuleEngine.mk [rangeErrorRule]) noMessage None
  = Normal None.
Proof.
  apply (findMatch_no_candidate (RuleEngine.mk [rangeErrorRule])).
  simpl. repeat (apply List.Forall_cons; [reflexivity|]). apply List.Forall_nil.
Defined.

(** ** The legacy table *)

Lemma lookupMapping_findPartial msg mapping :
  Core.lookupMapping msg Core.errorMappings = Some mapping ->
  Core.findPartial msg Core.errorMappings = Some mapping
  /\ Core.inherited msg = false.
Proof.
  unfold Core.errorMappings. cbn [Core.lookupMapping].
  repeat match goal with
         | |- context [String.eqb ?k msg] =>
             destruct (String.eqb_spec k msg) as [<-|_];
             [intros [= <-]; vm_compute; split; reflexivity|]
         end.
  discriminate.
Qed.

Lemma findPartial_first msg entries :
  match List.filter (includes msg) (map fst entries) with
  | [] => Core.findPartial msg entries = None
  | key :: _ =>
      exists mapping,
        Core.lookupMapping key entries = Some mapping
        /\ Core.findPartial msg entries = Some mapping
  end.
Proof.
  induction entries as [|[key mapping] rest IH]; simpl; [reflexivity|].
  destruct (includes msg key) eqn:Hkey.
  - exists mapping. now rewrite String.eqb_refl.
  - destruct (List.filter _ _) as [|first others] eqn:Hfilter; [exact IH|].
    destruct (String.eqb_spec key first) as [->|_]; [|exact IH].
    assert (Hin : In first (List.filter (includes msg) (map fst rest)))
      by (rewrite Hfilter; now left).
    apply List.filter_In in Hin as [_ Hin]. congruence.
Qed.

(** X12: the explanation of an error comes from the first entry of the
    table, in declaration order, whose key occurs in the message, and is
    the generic one when no key occurs; the exact-match lookup made first
    never gives another entry.  The one exception is a message that is
    exactly the name of a member the table inherits from
    [Object.prototype]: the exact-match lookup finds that member and the
    explanation carries the message alone. *)
Theorem getErrorExplanation_first_key error msg :
  JsError.message error = Some msg ->
  if Core.inherited msg
  then Core.getErrorExplanation error = Normal (Core.messageOnly msg)
  else match includedKeys msg with
       | [] =>
           Core.getErrorExplanation error
           = Normal (Core.explain msg Core.unknownMapping)
       | key :: _ =>
           exists mapping,
             Core.lookupMapping key Core.errorMappings = Some mapping
             /\ Core.getErrorExplanation error = Normal (Core.explain msg mapping)
       end.
Proof.
  intros Hmsg. unfold Core.getErrorExplanation, Core.memberAt, includedKeys.
  rewrite Hmsg.
  pose proof (findPartial_first msg Core.errorMappings) as Hfirst.
  destruct (Core.lookupMapping msg Core.errorMappings) as [exact|] eqn:Hexact.
  - apply lookupMapping_findPartial in Hexact as [Hpartial ->].
    destruct (List.filter _ _) as [|key others].
    + congruence.
    + destruct Hfirst as (mapping & Hkey & Hmapping). exists mapping.
      split; [exact Hkey | congruence].
  - destruct (Core.inherited msg); [reflexivity|].
    destruct (List.filter _ _) as [|key others].
    + now rewrite Hfirst.
    + destruct Hfirst as (mapping & Hkey & ->). now exists mapping.
Qed.

Lemma getErrorExplanation_first_key_witness :
  exists mapping,
    Core.lookupMapping "map is not a function" Core.errorMappings = Some mapping
    /\ Core.getErrorExplanation
         (JsError.mk (Some "Unexpected token: users.map is not a function")
                     (Some "TypeError") None)
       = Normal (Core.explain "Unexpected token: users.map is not a function" mapping).
Proof.
  apply (getErrorExplanation_first_key
           (JsError.mk (Some "Unexpected token: users.map is not a function")
                       (Some "TypeError") None)
           "Unexpected token: users.map is not a function").
  reflexivity.
Defined.

(** A message that is the name of an inherited member is explained by
    nothing but itself. *)
Example getErrorExplanation_constructor :
  Core.getErrorExplanation (JsError.mk (Some "constructor") (Some "Error") None)
  = Normal (Core.messageOnly "constructor").
Proof. reflexivity. Qed.

(** ** More on [prettyTry] *)

(** X13: a result [prettyTry] returns carries either the value (success,
    no explanation) or an explanation (failure, no value), never both and
    never neither; it reports success exactly when the function returned. *)
Theorem prettyTry_result_shape {T : Type} (fn : unit -> Result T) result :
  Core.prettyTry fn = Normal result ->
  (PrettyTryResult.success result = true
   /\ PrettyTryResult.error result = None
   /\ exists v, fn tt = Normal v /\ PrettyTryResult.data result = Some v)
  \/ (PrettyTryResult.success result = false
      /\ PrettyTryResult.data result = None
      /\ exists thrown explanation,
           fn tt = Throw thrown
           /\ PrettyTryResult.error result = Some explanation).
Proof.
  unfold Core.prettyTry. destruct (fn tt) as [v|thrown].
  - intros [= <-]. left. simpl. eauto.
  - intros H. right.
    destruct thrown as [| |[]|s|e|[s|x]]; simpl in H;
      try (injection H as <-; simpl; eauto 6); try discriminate H.
    destruct (Core.getErrorExplanation e) as [explanation|x]; simpl in H;
      [|discriminate]. injection H as <-. simpl. eauto 6.
Qed.

Lemma prettyTry_result_shape_witness :
  (PrettyTryResult.success (PrettyTryResult.mk true (Some 7) None) = true
   /\ PrettyTryResult.error (PrettyTryResult.mk true (Some 7) None) = None
   /\ exists v, @Normal JsValue nat 7 = Normal v
                /\ PrettyTryResult.data (PrettyTryResult.mk true (Some 7) None) = Some v)
  \/ (PrettyTryResult.success (PrettyTryResult.mk true (Some 7) None) = false
      /\ PrettyTryResult.data (PrettyTryResult.mk true (Some 7) None) = None
      /\ exists thrown explanation,
           @Normal JsValue nat 7 = Throw thrown
           /\ PrettyTryResult.error (PrettyTryResult.mk true (Some 7) None)
              = Some explanation).
Proof.
  apply (prettyTry_result_shape (fun _ : unit => @Normal JsValue nat 7)
           (PrettyTryResult.mk true (Some 7) None)).
  reflexivity.
Defined.

(** X14: [prettyTry] throws only after the function threw, and what it
    throws was raised while explaining the thrown value: by converting a
    value that is not an [Error] to a string, or by reading the message an
    [Error] lacks. *)
Theorem prettyTry_throws {T : Type} (fn : unit -> Result T) raised :
  Core.prettyTry fn = Throw raised ->
  exists thrown,
    fn tt = Throw thrown
    /\ ((instanceofError thrown = false /\ String_ thrown = Throw raised)
        \/ (exists e, thrown = JsErrorObject e
                      /\ JsError.message e = None
                      /\ raised = cannotRead "includes")).
Proof.
  unfold Core.prettyTry. destruct (fn tt) as [v|thrown]; [discriminate|].
  intros H. exists thrown. split; [reflexivity|].
  destruct thrown as [| |[]|s|e|conversion]; simpl in H; try discriminate H.
  - right. exists e. split; [reflexivity|].
    unfold Core.getErrorExplanation in H.
    destruct (JsError.message e) as [msg|]; [|now injection H as <-].
    destruct (Core.memberAt msg) as [[mapping|]|]; try discriminate H.
    destruct (Core.findPartial _ _); discriminate.
  - left. split; [reflexivity|]. simpl.
    destruct conversion; [discriminate | now injection H as <-].
Qed.

Lemma prettyTry_throws_witness :
  exists thrown,
    @Throw JsValue unit bareObject = Throw thrown
    /\ ((instanceofError thrown = false
         /\ String_ thrown
            = Throw (typeError "Cannot convert object to primitive value"))
        \/ (exists e, thrown = JsErrorObject e
                      /\ JsError.message e = None
                      /\ typeError "Cannot convert object to primitive value"
                         = cannotRead "includes")).
Proof.
  apply (prettyTry_throws (fun _ : unit => @Throw JsValue unit bareObject)).
  reflexivity.
Defined.

(** ** [wrapText] *)

Lemma append_nil_r (s : string) : s +:+ "" = s.
Proof. induction s as [|c s IH]; [reflexivity|]. now rewrite append_cons, IH. Qed.

Lemma append_assoc (a b c : string) : (a +:+ b) +:+ c = a +:+ (b +:+ c).
Proof. induction a as [|x a IH]; [reflexivity|]. now rewrite !append_cons, IH. Qed.

Lemma length_append (a b : string) :
  String.length (a +:+ b) = String.length a + String.length b.
Proof. induction a as [|x a IH]; [reflexivity|]. rewrite append_cons. simpl. now rewrite IH. Qed.

Lemma append_nonEmpty (a b : string) : b <> "" -> a +:+ b <> "".
Proof. destruct a; [now intros | discriminate]. Qed.

Lemma nonEmpty_true (s : string) : s <> "" -> nonEmpty s = true.
Proof. intros H. unfold nonEmpty. now rewrite (proj2 (String.eqb_neq s "")). Qed.

Lemma splitSpaces_cons (text : string) :
  exists word words, splitSpaces text = word :: words.
Proof.
  destruct text as [|c rest]; simpl; [now exists "", []|].
  destruct (Ascii.eqb c " "); [now eexists _, _|].
  destruct (splitSpaces rest); now eexists _, _.
Qed.

(** [text.split(' ').join(' ')] is [text]. *)
Lemma concat_splitSpaces (text : string) :
  String.concat " " (splitSpaces text) = text.
Proof.
  induction text as [|c rest IH]; [reflexivity|]. simpl.
  destruct (splitSpaces_cons rest) as (word & words & E). rewrite E in *.
  destruct (Ascii.eqb_spec c " ") as [->|_].
  - change (String.concat " " ("" :: word :: words))
      with (String " " (String.concat " " (word :: words))).
    now rewrite IH.
  - rewrite <- IH. now destruct words.
Qed.

Lemma concat_cons (x y : string) (l : list string) :
  String.concat " " (x :: y :: l) = x +:+ " " +:+ String.concat " " (y :: l).
Proof. reflexivity. Qed.

Lemma concat_push (x : string) (l : list string) (w : string) :
  String.concat " " ((x :: l) ++ [w]) = String.concat " " (x :: l) +:+ " " +:+ w.
Proof.
  revert x. induction l as [|y l IH]; intros x; [reflexivity|].
  change ((x :: y :: l) ++ [w]) with (x :: ((y :: l) ++ [w])).
  change ((y :: l) ++ [w]) with (y :: (l ++ [w])) at 1.
  rewrite !concat_cons.
  change (y :: (l ++ [w])) with ((y :: l) ++ [w]).
  now rewrite IH, !append_assoc.
Qed.

Lemma concat_snoc (l : list string) (a w : string) :
  String.concat " " ((l ++ [a]) ++ [w]) = String.concat " " (l ++ [a]) +:+ " " +:+ w.
Proof. destruct l; apply concat_push. Qed.

Lemma concat_snoc_append (l : list string) (a w : string) :
  String.concat " " (l ++ [a +:+ " " +:+ w])
  = String.concat " " (l ++ [a]) +:+ " " +:+ w.
Proof.
  induction l as [|x l IH]; [reflexivity|].
  destruct l as [|y l].
  - change (x +:+ " " +:+ (a +:+ " " +:+ w) = (x +:+ " " +:+ a) +:+ " " +:+ w).
    now rewrite !append_assoc.
  - change ((x :: y :: l) ++ [a +:+ " " +:+ w])
      with (x :: y :: (l ++ [a +:+ " " +:+ w])).
    change ((x :: y :: l) ++ [a]) with (x :: y :: (l ++ [a])).
    rewrite !concat_cons.
    change (y :: (l ++ [a +:+ " " +:+ w])) with ((y :: l) ++ [a +:+ " " +:+ w]).
    change (y :: (l ++ [a])) with ((y :: l) ++ [a]).
    now rewrite IH, !append_assoc.
Qed.

(** What the loop keeps once it has seen the words [seen], none empty:
    the lines pushed so far and the current line, joined by spaces, are the
    words seen joined by spaces. *)
Lemma wrapWord_keeps maxWidth indent st contents seen word :
  lines st = map (String.append indent) contents ->
  currentLine st <> "" ->
  String.concat " " (contents ++ [currentLine st]) = String.concat " " (seen ++ [word]) ->
  word <> "" ->
  forall next,
  exists contents',
    lines (wrapWord maxWidth indent st next) = map (String.append indent) contents'
    /\ (next <> "" -> currentLine (wrapWord maxWidth indent st next) <> "")
    /\ String.concat " " (contents' ++ [currentLine (wrapWord maxWidth indent st next)])
       = String.concat " " ((seen ++ [word]) ++ [next]).
Proof.
  intros Hlines Hcur Hjoin Hword next. unfold wrapWord, pushLine.
  rewrite (nonEmpty_true _ Hcur), concat_snoc, <- Hjoin.
  destruct (_ <=? _)%Z; simpl.
  - exists contents. split; [exact Hlines|]. split.
    + intros Hnext. now apply append_nonEmpty, append_nonEmpty.
    + apply concat_snoc_append.
  - exists (contents ++ [currentLine st]). split; [|split].
    + now rewrite Hlines, map_app.
    + now intros.
    + apply concat_snoc.
Qed.

Lemma wrap_fold_keeps maxWidth indent words :
  forall st contents seen word,
  lines st = map (String.append indent) contents ->
  currentLine st <> "" ->
  String.concat " " (contents ++ [currentLine st]) = String.concat " " (seen ++ [word]) ->
  word <> "" ->
  List.Forall (fun w => w <> "") words ->
  let st' := fold_left (wrapWord maxWidth indent) words st in
  exists contents',
    lines st' = map (String.append indent) contents'
    /\ currentLine st' <> ""
    /\ String.concat " " (contents' ++ [currentLine st'])
       = String.concat " " ((seen ++ [word]) ++ words).
Proof.
  induction words as [|next rest IH];
    intros st contents seen word Hlines Hcur Hjoin Hword Hwords; simpl.
  - exists contents. now rewrite app_nil_r.
  - apply List.Forall_cons_iff in Hwords as [Hnext Hrest].
    destruct (wrapWord_keeps maxWidth indent st contents seen word
                Hlines Hcur Hjoin Hword next) as (contents1 & H1 & H2 & H3).
    destruct (IH _ contents1 (seen ++ [word]) next H1 (H2 Hnext) H3 Hnext Hrest)
      as (contents' & H1' & H2' & H3').
    exists contents'. split; [exact H1'|]. split; [exact H2'|].
    now rewrite H3', <- !app_assoc.
Qed.

(** X15: for a text without leading, trailing or doubled spaces,
    [wrapText] loses nothing and invents nothing: each line is the indent
    followed by a content, and the contents joined by single spaces are the
    text again. *)
Theorem wrapText_round_trip maxWidth text indent :
  wellSpaced text ->
  exists contents,
    wrapText maxWidth text indent = map (String.append indent) contents
    /\ String.concat " " contents = text.
Proof.
  intros Hwords. unfold wellSpaced in Hwords.
  pose proof (concat_splitSpaces text) as Hjoin. unfold wrapText.
  destruct (splitSpaces_cons text) as (word & words & E). rewrite E in *.
  apply List.Forall_cons_iff in Hwords as [Hword Hwords].
  cbn [fold_left].
  assert (Hfirst : wrapWord maxWidth indent {| lines := []; currentLine := "" |} word
                   = {| lines := []; currentLine := word |}).
  { unfold wrapWord, pushLine. simpl. now destruct (_ <=? _)%Z. }
  rewrite Hfirst.
  destruct (wrap_fold_keeps maxWidth indent words
              {| lines := []; currentLine := word |} [] [] word
              eq_refl Hword eq_refl Hword Hwords)
    as (contents & Hlines & Hcur & Hcontents).
  simpl in Hcontents. cbv zeta in Hlines, Hcur, Hcontents.
  exists (contents ++ [currentLine
                         (fold_left (wrapWord maxWidth indent) words
                                    {| lines := []; currentLine := word |})]).
  split; [|now rewrite Hcontents].
  unfold pushLine. rewrite (nonEmpty_true _ Hcur), Hlines, map_app. simpl.
  now rewrite length_app, Nat.add_comm.
Qed.

Lemma wrapText_round_trip_witness :
  exists contents,
    wrapText 10 "the quick brown fox" "> " = map (String.append "> ") contents
    /\ String.concat " " contents = "the quick brown fox".
Proof.
  apply (wrapText_round_trip 10 "the quick brown fox" "> ").
  unfold wellSpaced. simpl.
  repeat (apply List.Forall_cons; [discriminate|]). apply List.Forall_nil.
Defined.

Lemma pushLine_linesOf indent (P : string -> Prop) st :
  linesOf indent P (lines st) ->
  (currentLine st <> "" -> P (currentLine st)) ->
  linesOf indent P (pushLine indent st).
Proof.
  intros Hlines Hcur. unfold pushLine, nonEmpty.
  destruct (String.eqb_spec (currentLine st) ""); simpl; [exact Hlines|].
  apply List.Forall_app. split; [exact Hlines|].
  constructor; [|constructor]. exists (currentLine st). split; [reflexivity | auto].
Qed.

Lemma wrap_fold_linesOf maxWidth indent (P : string -> Prop) all words :
  (forall word, In word all -> P word) ->
  (forall cur word,
     In word all ->
     (Z.of_nat (String.length (cur +:+ word)) <= wrapLimit maxWidth indent)%Z ->
     P (cur +:+ ((if nonEmpty cur then " " else "") +:+ word))) ->
  (forall word, In word words -> In word all) ->
  forall st,
  linesOf indent P (lines st) ->
  (currentLine st <> "" -> P (currentLine st)) ->
  let st' := fold_left (wrapWord maxWidth indent) words st in
  linesOf indent P (lines st') /\ (currentLine st' <> "" -> P (currentLine st')).
Proof.
  intros Hword Hfit. induction words as [|next rest IH]; intros Hall st Hlines Hcur;
    simpl; [now split|].
  apply IH; [intros w Hw; apply Hall; now right | |]; unfold wrapWord;
    destruct (Z.leb_spec (Z.of_nat (String.length (currentLine st +:+ next)))
                         (maxWidth - Z.of_nat (String.length indent))); simpl;
    try assumption.
  - now apply pushLine_linesOf.
  - intros _. apply Hfit; [apply Hall; now left | assumption].
  - intros _. apply Hword, Hall. now left.
Qed.

(** X16: [wrapText] always returns at least one line, and every line
    starts with the indent; the empty text gives the indent alone. *)
Theorem wrapText_lines maxWidth text indent :
  wrapText maxWidth text indent <> []
  /\ linesOf indent (fun _ => True) (wrapText maxWidth text indent)
  /\ wrapText maxWidth "" indent = [indent].
Proof.
  split; [|split].
  - unfold wrapText. destruct (pushLine _ _); simpl; discriminate.
  - unfold wrapText.
    destruct (wrap_fold_linesOf maxWidth indent (fun _ => True)
                (splitSpaces text) (splitSpaces text)
                (fun _ _ => I) (fun _ _ _ _ => I) (fun _ H => H)
                {| lines := []; currentLine := "" |})
      as [Hlines Hcur]; [constructor | intros _; exact I |].
    pose proof (pushLine_linesOf indent _ _ Hlines Hcur) as Hpush.
    destruct (pushLine _ _) as [|line rest]; simpl; [|exact Hpush].
    constructor; [|constructor]. now exists text.
  - unfold wrapText, wrapWord, pushLine. simpl.
    destruct (_ <=? _)%Z; simpl; now rewrite append_nil_r.
Qed.

Lemma wrapWord_started maxWidth indent st word :
  lines st <> [] \/ currentLine st <> "" \/ word <> "" ->
  lines (wrapWord maxWidth indent st word) <> []
  \/ currentLine (wrapWord maxWidth indent st word) <> "".
Proof.
  unfold wrapWord, pushLine, nonEmpty. intros H.
  destruct (_ <=? _)%Z; simpl.
  - destruct H as [H|[H|H]]; [now left | right | right].
    + destruct (currentLine st); [contradiction | discriminate].
    + now apply append_nonEmpty, append_nonEmpty.
  - destruct (String.eqb_spec (currentLine st) "") as [E|E]; simpl.
    + destruct H as [H|[H|H]]; [now left | contradiction | now right].
    + left. now destruct (lines st).
Qed.

Lemma wrap_fold_started maxWidth indent words : forall st,
  lines st <> [] \/ currentLine st <> ""
  \/ (exists word, In word words /\ word <> "") ->
  let st' := fold_left (wrapWord maxWidth indent) words st in
  lines st' <> [] \/ currentLine st' <> "".
Proof.
  induction words as [|next rest IH]; intros st H; simpl.
  - destruct H as [H|[H|(word & [] & _)]]; auto.
  - apply IH.
    destruct H as [H|[H|(word & [<-|Hin] & Hword)]];
      [| | |right; right; now exists word];
      (destruct (wrapWord_started maxWidth indent st next) as [H'|H'];
       [tauto | now left | right; now left]).
Qed.

(** X17: for a text with at least one word, every line [wrapText] returns
    is the indent followed by either a single word of the text or a content
    at most one code unit longer than [maxWidth] less the indent: the test
    that decides whether a word still fits does not count the space that
    will join it. *)
Theorem wrapText_width maxWidth text indent :
  (exists word, In word (splitSpaces text) /\ word <> "") ->
  linesOf indent (wordOrFits maxWidth text indent) (wrapText maxWidth text indent).
Proof.
  intros Hword. unfold wrapText.
  set (st0 := {| lines := []; currentLine := "" |}).
  destruct (wrap_fold_linesOf maxWidth indent (wordOrFits maxWidth text indent)
              (splitSpaces text) (splitSpaces text)) with (st := st0)
    as [Hlines Hcur].
  - intros word Hin. now left.
  - intros cur word _ Hfits. right. rewrite !length_append in *.
    assert (String.length (if nonEmpty cur then " " else "") <= 1)
      by (destruct (nonEmpty cur); simpl; lia).
    lia.
  - auto.
  - constructor.
  - now intros [].
  - pose proof (pushLine_linesOf indent _ _ Hlines Hcur) as Hpush.
    destruct (wrap_fold_started maxWidth indent (splitSpaces text) st0) as [H|H];
      [now right; right | |];
      unfold pushLine in *;
      destruct (nonEmpty _) eqn:Hne;
      try (rewrite length_app, Nat.add_comm; simpl; exact Hpush).
    + destruct (lines _); [contradiction | exact Hpush].
    + unfold nonEmpty in Hne. apply negb_false_iff, String.eqb_eq in Hne.
      contradiction.
Qed.

Lemma wrapText_width_witness :
  linesOf "" (wordOrFits 6 "abc def extraordinary" "")
          (wrapText 6 "abc def extraordinary" "").
Proof.
  apply (wrapText_width 6 "abc def extraordinary" "").
  exists "abc". split; [now left | discriminate].
Defined.

(** The bound is reached: with room for six, a line of seven is returned,
    and a word longer than the room gets a line of its own. *)
Example wrapText_one_over :
  wrapText 6 "abc def extraordinary" "" = ["abc def"; "extraordinary"].
Proof. reflexivity. Qed.
